(** * quill-api: the payment client example and the startup script

    A shallow embedding of [payment_integration_example.js] (the
    [PaymentService] request wrapper and the browser-side handlers around
    it) and of [start.sh], with the properties of the specification stated
    and proved over it.

    JavaScript values are a small inductive type, objects are association
    lists in insertion order, the browser ([fetch], [localStorage],
    [window.open], [alert], [console]) is a world threaded through a state
    and exception monad, and [await] is sequential composition. *)

From Stdlib Require Import Ascii.
From stdpp Require Import gmap strings list fin_maps pretty.

Local Open Scope Z_scope.
Set Warnings "-register-all".

(** ** JavaScript values *)

(** Numbers are the integers among the JavaScript numbers, strings are
    ASCII text. An integer stands for a JavaScript number only inside the
    safe range ([safe_int], below): outside it JavaScript rounds, and
    from 1e21 on prints in exponent form. *)
Inductive value : Type :=
  | VUndefined
  | VNull
  | VBool (b : bool)
  | VNum (n : Z)
  | VStr (s : string)
  | VArr (elems : list value)
  | VObj (props : list (string * value)).

(** What [throw] carries. The message of a [TypeError] or a [SyntaxError]
    raised by the platform depends on the engine and is left out. *)
Inductive exn : Type :=
  | Error (message : string)
  | TypeError
  | SyntaxError.

Inductive Result (A : Type) : Type :=
  | Return (a : A)
  | Throw (e : exn).
Arguments Return {A} a.
Arguments Throw {A} e.

(** ToBoolean: what [if (v)] tests. *)
Definition truthy (v : value) : bool :=
  match v with
  | VUndefined | VNull => false
  | VBool b => b
  | VNum n => negb (n =? 0)
  | VStr s => negb (String.eqb s "")
  | VArr _ | VObj _ => true
  end.

Definition join_with (sep : string) (l : list string) : string :=
  match l with
  | [] => ""
  | x :: r => fold_left (fun acc y => acc +:+ sep +:+ y) r x
  end.

(** The text of a value: what a template literal writes for it, on the
    values [stringable] singles out below. Outside them JavaScript does
    otherwise: a number beyond the safe range is printed rounded or in
    exponent form, and on an object that has a [toString] property of its
    own (never a function, in a value that came out of JSON) ToString
    throws. *)
Fixpoint to_string (v : value) : string :=
  match v with
  | VUndefined => "undefined"
  | VNull => "null"
  | VBool true => "true"
  | VBool false => "false"
  | VNum n => pretty n
  | VStr s => s
  | VArr l =>
      join_with ","
        (map (fun x => match x with
                       | VUndefined | VNull => ""
                       | _ => to_string x
                       end) l)
  | VObj _ => "[object Object]"
  end.

(** A parameter default, [f(x = d)]: used when the argument is undefined. *)
Definition param_default (arg d : value) : value :=
  match arg with
  | VUndefined => d
  | _ => arg
  end.

(** ** Objects *)

Fixpoint obj_get (k : string) (o : list (string * value)) : option value :=
  match o with
  | [] => None
  | (k', v) :: r => if String.eqb k' k then Some v else obj_get k r
  end.

(** [o[k] = v]: an existing property keeps its place, a new one goes last. *)
Fixpoint obj_set (k : string) (v : value) (o : list (string * value))
  : list (string * value) :=
  match o with
  | [] => [(k, v)]
  | (k', v') :: r =>
      if String.eqb k' k then (k, v) :: r else (k', v') :: obj_set k v r
  end.

Fixpoint indexed {A : Type} (i : nat) (l : list A) : list (string * A) :=
  match l with
  | [] => []
  | x :: r => (pretty i, x) :: indexed (S i) r
  end.

Fixpoint chars (s : string) : list value :=
  match s with
  | EmptyString => []
  | String c r => VStr (String c EmptyString) :: chars r
  end.

(** The own enumerable properties of a value, as spread syntax sees them. *)
Definition own_props (v : value) : list (string * value) :=
  match v with
  | VObj o => o
  | VArr l => indexed 0 l
  | VStr s => indexed 0 (chars s)
  | _ => []
  end.

(** [{ ...target, ...src }]: the properties of [src] are set one by one. *)
Definition spread (src target : list (string * value)) : list (string * value) :=
  fold_left (fun o p => obj_set (fst p) (snd p) o) src target.

(** ** JSON.stringify *)

Definition dquote : string := String (ascii_of_nat 34) EmptyString.
Definition backslash : string := String (ascii_of_nat 92) EmptyString.

Definition hex_digit (n : nat) : string :=
  String.substring n 1 "0123456789abcdef".

Definition json_escape (c : ascii) : string :=
  let n := nat_of_ascii c in
  if (n =? 34)%nat then backslash +:+ dquote
  else if (n =? 92)%nat then backslash +:+ backslash
  else if (n =? 8)%nat then backslash +:+ "b"
  else if (n =? 9)%nat then backslash +:+ "t"
  else if (n =? 10)%nat then backslash +:+ "n"
  else if (n =? 12)%nat then backslash +:+ "f"
  else if (n =? 13)%nat then backslash +:+ "r"
  else if (n <? 32)%nat then
    backslash +:+ "u00" +:+ hex_digit (n / 16) +:+ hex_digit (n mod 16)
  else String c EmptyString.

Fixpoint json_escape_string (s : string) : string :=
  match s with
  | EmptyString => ""
  | String c r => json_escape c +:+ json_escape_string r
  end.

Definition json_quote (s : string) : string :=
  dquote +:+ json_escape_string s +:+ dquote.

(** [None] is the [undefined] that [JSON.stringify(undefined)] gives; a
    property whose value is undefined is skipped, an undefined array
    element is written [null]. Numbers are written as [to_string] writes
    them, which is what JavaScript writes inside the safe range. *)
Fixpoint stringify (v : value) : option string :=
  match v with
  | VUndefined => None
  | VNull => Some "null"
  | VBool true => Some "true"
  | VBool false => Some "false"
  | VNum n => Some (pretty n)
  | VStr s => Some (json_quote s)
  | VArr l =>
      Some ("[" +:+ join_with "," (map (fun x => default "null" (stringify x)) l)
            +:+ "]")
  | VObj o =>
      Some ("{" +:+
            join_with ","
              ((fix members (ps : list (string * value)) : list string :=
                  match ps with
                  | [] => []
                  | (k, x) :: r =>
                      match stringify x with
                      | Some s => (json_quote k +:+ ":" +:+ s) :: members r
                      | None => members r
                      end
                  end) o)
            +:+ "}")
  end.

Definition JSON_stringify (v : value) : value :=
  match stringify v with
  | Some s => VStr s
  | None => VUndefined
  end.

(** ** The browser *)

(** An HTTP response as [fetch] resolves it: the status line and the body,
    which either is the serialisation of a JSON value or is not JSON. *)
Inductive Body : Type :=
  | JsonBody (v : value)
  | NotJson.

Record Response : Type := { status : Z; body : Body }.

(** [Response.ok], as the Fetch standard defines it. *)
Definition ok (r : Response) : bool :=
  (200 <=? status r) && (status r <=? 299).

(** [fetch] resolves with a response, whatever its status, or rejects with
    a [TypeError] when the network fails or the request is refused. *)
Inductive FetchResult : Type :=
  | NetworkFailure
  | Responded (r : Response).

(** The calls the program makes on the platform, in the order made. *)
Inductive Event : Type :=
  | EvFetch (url : string) (init : value)
  | EvResponseJson (r : Response)
  | EvWindowOpen (url target : value)
  | EvAlert (message : string)
  | EvConsoleLog (args : list value)
  | EvConsoleError (label : string) (error : exn).

(** ** class PaymentService: the fields *)

Record PaymentService : Type := { apiBaseUrl : value; authToken : value }.

(** The state the program runs on: the module-level [paymentService]
    object, [localStorage], and the log of platform calls. *)
Record World : Type := {
  paymentService : PaymentService;
  localStorage : gmap string string;
  events : list Event
}.

(** ** A state and exception monad *)

Definition M (A : Type) : Type := World -> Result A * World.

Definition ret {A : Type} (a : A) : M A := fun w => (Return a, w).

Definition throw {A : Type} (e : exn) : M A := fun w => (Throw e, w).

Definition bind {A B : Type} (m : M A) (k : A -> M B) : M B :=
  fun w =>
    match m w with
    | (Return a, w') => k a w'
    | (Throw e, w') => (Throw e, w')
    end.

(** [try { body } catch (error) { handler }] *)
Definition try_catch {A : Type} (body : M A) (handler : exn -> M A) : M A :=
  fun w =>
    match body w with
    | (Return a, w') => (Return a, w')
    | (Throw e, w') => handler e w'
    end.

Declare Scope js_scope.
Delimit Scope js_scope with js.
Notation "'let!' x ':=' c 'in' k" := (bind c (fun x => k))
  (at level 10, x name, c at level 100, k at level 200) : js_scope.
Notation "'do!' c 'in' k" := (bind c (fun _ => k))
  (at level 10, c at level 100, k at level 200) : js_scope.
Local Open Scope js_scope.

Definition with_events (evs : list Event) (w : World) : World :=
  {| paymentService := paymentService w;
     localStorage := localStorage w;
     events := evs |}.

Definition with_localStorage (store : gmap string string) (w : World) : World :=
  {| paymentService := paymentService w;
     localStorage := store;
     events := events w |}.

Definition emit (e : Event) : M unit :=
  fun w => (Return tt, with_events (events w ++ [e]) w).

(** [v.k]: reading a property of null or undefined throws. The names read
    in this program ([headers], [success], [checkout_url], [session_id],
    [total_credits], [tier], [credits]) are inherited from no built-in
    prototype, so one that is not an own property reads as undefined. *)
Definition get_prop (v : value) (k : string) : M value :=
  match v with
  | VUndefined | VNull => throw TypeError
  | _ => ret (default VUndefined (obj_get k (own_props v)))
  end.

(** [window.open(url, target)], on a URL the browser accepts. *)
Definition window_open (url target : value) : M unit :=
  emit (EvWindowOpen url target).

Definition alert (message : string) : M unit := emit (EvAlert message).

Definition console_log (args : list value) : M unit := emit (EvConsoleLog args).

Definition console_error (label : string) (error : exn) : M unit :=
  emit (EvConsoleError label error).

(** [localStorage.setItem(k, v)] stores the string of [v]; the storage
    is taken to have room. *)
Definition localStorage_setItem (k : string) (v : value) : M unit :=
  fun w =>
    (Return tt, with_localStorage (<[k := to_string v]> (localStorage w)) w).

Definition localStorage_removeItem (k : string) : M unit :=
  fun w => (Return tt, with_localStorage (delete k (localStorage w)) w).

(** [response.json()] *)
Definition response_json (r : Response) : M value :=
  do! emit (EvResponseJson r) in
  match body r with
  | JsonBody v => ret v
  | NotJson => throw SyntaxError
  end.

(** [new URLSearchParams(search).get(name)]: the first value under the
    name, or null. The query string is given as the name and value pairs
    it parses to. *)
Definition URLSearchParams_get (params : list (string * string)) (name : string)
  : value :=
  match find (fun p => String.eqb (fst p) name) params with
  | Some p => VStr (snd p)
  | None => VNull
  end.

Section Client.

(** The network, which answers a request given everything done so far. *)
Variable network : list Event -> string -> value -> FetchResult.

(** [window.location.search], parsed. *)
Variable location_search : list (string * string).

Definition fetch (url : string) (init : value) : M Response :=
  fun w =>
    let reply := network (events w) url init in
    match emit (EvFetch url init) w with
    | (_, w') =>
        match reply with
        | Responded r => (Return r, w')
        | NetworkFailure => (Throw TypeError, w')
        end
    end.

(** ** class PaymentService: the methods *)

Definition constructor (apiBaseUrl authToken : value) : PaymentService :=
  {| apiBaseUrl := param_default apiBaseUrl (VStr "http://localhost:8000");
     authToken := param_default authToken VNull |}.

Definition setAuthToken (token : value) (this : PaymentService)
  : PaymentService :=
  {| apiBaseUrl := apiBaseUrl this; authToken := token |}.

Definition makeAuthenticatedRequest (this : PaymentService)
    (url options : value) : M value :=
  let options := param_default options (VObj []) in
  let! extra := get_prop options "headers" in
  let headers :=
    spread (own_props extra) [("Content-Type", VStr "application/json")] in
  let headers :=
    if truthy (authToken this)
    then obj_set "Authorization"
           (VStr ("Bearer " +:+ to_string (authToken this))) headers
    else headers in
  let! response :=
    fetch (to_string (apiBaseUrl this) +:+ to_string url)
          (VObj (obj_set "headers" (VObj headers)
                   (spread (own_props options) []))) in
  if negb (ok response)
  then throw (Error ("HTTP error! status: " +:+ pretty (status response)))
  else response_json response.

Definition getPricingPlans (this : PaymentService) : M value :=
  makeAuthenticatedRequest this (VStr "/pricing/plans") VUndefined.

Definition createSubscription (this : PaymentService) (plan : value) : M value :=
  makeAuthenticatedRequest this (VStr "/subscriptions/create")
    (VObj [("method", VStr "POST");
           ("body", JSON_stringify (VObj [("plan", plan)]))]).

Definition purchaseCredits (this : PaymentService) (amount : value) : M value :=
  makeAuthenticatedRequest this (VStr "/credits/purchase")
    (VObj [("method", VStr "POST");
           ("body", JSON_stringify (VObj [("amount", amount)]))]).

Definition getSubscriptionStatus (this : PaymentService) : M value :=
  makeAuthenticatedRequest this (VStr "/subscriptions/status") VUndefined.

Definition getUserAnalytics (this : PaymentService) (days : value) : M value :=
  let days := param_default days (VNum 30) in
  makeAuthenticatedRequest this
    (VStr ("/users/analytics?days=" +:+ to_string days)) VUndefined.

(** ** The handlers around the module-level [paymentService] *)

Definition the_paymentService : M PaymentService :=
  fun w => (Return (paymentService w), w).


Definition handleSubscriptionPurchase (plan : value) : M unit :=
  try_catch
    (let! this := the_paymentService in
     let! response := createSubscription this plan in
     let! success := get_prop response "success" in
     if truthy success then
       let! checkout_url := get_prop response "checkout_url" in
       do! window_open checkout_url (VStr "_blank") in
       let! session_id := get_prop response "session_id" in
       localStorage_setItem "stripe_session_id" session_id
     else ret tt)
    (fun error =>
       do! console_error "Subscription purchase failed:" error in
       alert "Failed to create subscription checkout. Please try again.").

Definition handleCreditPurchase (amount : value) : M unit :=
  try_catch
    (let! this := the_paymentService in
     let! response := purchaseCredits this amount in
     let! success := get_prop response "success" in
     if truthy success then
       let! checkout_url := get_prop response "checkout_url" in
       do! window_open checkout_url (VStr "_blank") in
       let! total_credits := get_prop response "total_credits" in
       do! alert ("You'll receive " +:+ to_string total_credits
                  +:+ " credits after payment!") in
       let! session_id := get_prop response "session_id" in
       localStorage_setItem "stripe_session_id" session_id
     else ret tt)
    (fun error =>
       do! console_error "Credit purchase failed:" error in
       alert "Failed to create credit purchase checkout. Please try again.").

(** [credits === -1] *)
Definition is_minus_one (v : value) : bool :=
  match v with
  | VNum n => n =? -1
  | _ => false
  end.

Definition updateUserInterface (userStatus : value) : M unit :=
  let! success := get_prop userStatus "success" in
  if truthy success then
    let! tier := get_prop userStatus "tier" in
    let! credits := get_prop userStatus "credits" in
    do! console_log [VStr ("User tier: " +:+ to_string tier)] in
    console_log
      [VStr ("Available credits: " +:+
             (if is_minus_one credits then "Unlimited" else to_string credits))]
  else ret tt.

Definition handlePaymentSuccess : M unit :=
  let sessionId := URLSearchParams_get location_search "session_id" in
  if truthy sessionId then
    try_catch
      (let! this := the_paymentService in
       let! status := getSubscriptionStatus this in
       do! console_log [VStr "Updated user status:"; status] in
       do! updateUserInterface status in
       localStorage_removeItem "stripe_session_id")
      (fun error => console_error "Failed to get updated user status:" error)
  else ret tt.

End Client.

(** ** start.sh *)

Module StartSh.

(** What [exec] replaces the shell with: the command line and the
    exported environment. *)
Record Exec : Type := { argv : list string; environ : gmap string string }.

(** [${parameter:-word}]: [word] when the parameter is unset or null. *)
Definition use_default (parameter : option string) (word : string) : string :=
  match parameter with
  | Some s => if String.eqb s "" then word else s
  | None => word
  end.

(** The default [IFS]: space, tab, newline. *)
Definition is_ifs (c : ascii) : bool :=
  let n := nat_of_ascii c in
  ((n =? 32) || (n =? 9) || (n =? 10))%nat.

Definition finish (cur : option string) : list string :=
  match cur with
  | Some f => [f]
  | None => []
  end.

(** Field splitting of an unquoted expansion. *)
Fixpoint fields (cur : option string) (s : string) : list string :=
  match s with
  | EmptyString => finish cur
  | String c r =>
      if is_ifs c then finish cur ++ fields None r
      else fields (Some (default "" cur +:+ String c EmptyString)) r
  end.

Fixpoint has_glob (s : string) : bool :=
  match s with
  | EmptyString => false
  | String c r =>
      let n := nat_of_ascii c in
      ((n =? 42) || (n =? 63) || (n =? 91))%nat || has_glob r
  end.

Fixpoint has_ifs (s : string) : bool :=
  match s with
  | EmptyString => false
  | String c r => is_ifs c || has_ifs r
  end.

(** A value that is one word to the shell, as a port number is: not
    empty, no blank to split at, no pattern character to expand. *)
Definition single_word (s : string) : bool :=
  negb (String.eqb s "") && negb (has_ifs s) && negb (has_glob s).

Section Script.

(** The file names a pattern matches in the working directory, sorted. *)
Variable matches : string -> list string.

(** Pathname expansion of one field. *)
Definition glob (f : string) : list string :=
  if has_glob f then
    match matches f with
    | [] => [f]
    | names => names
    end
  else [f].

(** An unquoted [$name] in a command line. *)
Definition unquoted (env : gmap string string) (name : string) : list string :=
  flat_map glob (fields None (default "" (env !! name))).

Definition start (env : gmap string string) : Exec :=
  let env := <["PORT" := use_default (env !! "PORT") "8000"]> env in
  {| argv :=
       ["uvicorn"; "main:app"; "--host"; "0.0.0.0"; "--port"]
         ++ unquoted env "PORT" ++ ["--workers"; "1"];
     environ := env |}.

End Script.

End StartSh.

(** ** Observations *)

(** The requests handed to [fetch], oldest first. *)
Fixpoint requests (evs : list Event) : list (string * value) :=
  match evs with
  | [] => []
  | EvFetch url init :: r => (url, init) :: requests r
  | _ :: r => requests r
  end.

(** The header of a request under exactly the name [name], if its headers
    object has one. *)
Definition header (name : string) (init : value) : option value :=
  obj_get name (own_props (default VUndefined (obj_get "headers" (own_props init)))).

(** [options.headers], the extra headers of the caller. *)
Definition extra_headers (options : value) : list (string * value) :=
  own_props
    (default VUndefined
       (obj_get "headers" (own_props (param_default options (VObj []))))).

(** Running [m] in [w] hands exactly one request to [fetch]: it goes to
    [target] and its init object satisfies [P]. *)
Definition sends {A : Type} (m : M A) (w : World) (target : string)
    (P : value -> Prop) : Prop :=
  ∃ init,
    requests (events (m w).2) = requests (events w) ++ [(target, init)]
    ∧ P init.

(** ** Scenario data *)

(** A network that gives one answer to everything. *)
Definition answers (r : Response) : list Event -> string -> value -> FetchResult :=
  fun _ _ _ => Responded r.

(** A page freshly loaded: [new PaymentService()], nothing stored, nothing
    done yet. *)
Definition fresh : World :=
  {| paymentService := constructor VUndefined VUndefined;
     localStorage := ∅;
     events := [] |}.

Definition no_content : Response := {| status := 204; body := NotJson |}.

Definition not_found : Response :=
  {| status := 404; body := JsonBody (VObj [("detail", VStr "Not Found")]) |}.

Definition free_tier : value :=
  VObj [("success", VBool true); ("tier", VStr "free"); ("credits", VNum (-1))].

Definition status_ok : Response := {| status := 200; body := JsonBody free_tier |}.

(** The request body [{"plan":"pro"}]. *)
Definition plan_pro : string :=
  "{" +:+ dquote +:+ "plan" +:+ dquote +:+ ":" +:+ dquote +:+ "pro" +:+ dquote
  +:+ "}".

(** The request body [{"amount":100}]. *)
Definition amount_100 : string :=
  "{" +:+ dquote +:+ "amount" +:+ dquote +:+ ":100}".

Definition checkout_created : value :=
  VObj [("success", VBool true);
        ("checkout_url", VStr "https://pay.example/cs_1");
        ("session_id", VStr "cs_1")].

Definition credits_bought : value :=
  VObj [("success", VBool true); ("total_credits", VNum 120)].

Definition checkout_response : Response :=
  {| status := 200; body := JsonBody checkout_created |}.

Definition credits_response : Response :=
  {| status := 201; body := JsonBody credits_bought |}.

Definition server_error : Response := {| status := 500; body := NotJson |}.

(** A page on which a checkout was started earlier. *)
Definition awaiting_payment : World :=
  {| paymentService := constructor VUndefined VUndefined;
     localStorage := {["stripe_session_id" := "cs_1"]};
     events := [] |}.

(** A caller that brings its own credentials. *)
Definition basic_auth : value :=
  VObj [("headers", VObj [("Authorization", VStr "Basic dXNlcjpwdw==")])].

(** A caller that sends plain text. *)
Definition plain_text : value :=
  VObj [("method", VStr "POST");
        ("headers", VObj [("Content-Type", VStr "text/plain")]);
        ("body", VStr "hello")].


(** ** The pricing display *)

(** [Array.prototype.join]: null and undefined elements are written as
    nothing, the others as their strings. *)
Definition array_join (sep : string) (l : list value) : string :=
  join_with sep
    (map (fun x => match x with
                   | VUndefined | VNull => ""
                   | _ => to_string x
                   end) l).

(** [v.join(sep)] on a value that came out of JSON: only an array has the
    method; on anything else the call throws. *)
Definition call_join (v : value) (sep : string) : M string :=
  match v with
  | VArr l => ret (array_join sep l)
  | _ => throw TypeError
  end.

(** [Object.entries(v)]: throws on null and undefined; otherwise the own
    properties, in the order of the list, which stands for the order in
    which the object enumerates them. *)
Definition Object_entries (v : value) : M (list (string * value)) :=
  match v with
  | VUndefined | VNull => throw TypeError
  | _ => ret (own_props v)
  end.

(** [entries.forEach(f)]: in order, stopping at the first throw. *)
Fixpoint forEach {A : Type} (l : list A) (f : A -> M unit) : M unit :=
  match l with
  | [] => ret tt
  | x :: r => do! f x in forEach r f
  end.

(** The white space [parseInt] skips, among the ASCII characters. *)
Definition is_js_space (c : ascii) : bool :=
  let n := nat_of_ascii c in
  ((n =? 32) || ((9 <=? n) && (n <=? 13)))%nat.

Fixpoint skip_js_space (s : string) : string :=
  match s with
  | String c r => if is_js_space c then skip_js_space r else s
  | EmptyString => s
  end.

(** The value of a character as a digit in the radix, if it is one. *)
Definition digit_value (radix : Z) (c : ascii) : option Z :=
  let n := Z.of_nat (nat_of_ascii c) in
  let d :=
    if (48 <=? n) && (n <=? 57) then Some (n - 48)
    else if (97 <=? n) && (n <=? 122) then Some (n - 87)
    else if (65 <=? n) && (n <=? 90) then Some (n - 55)
    else None in
  match d with
  | Some d => if d <? radix then Some d else None
  | None => None
  end.

(** The digits at the head of [s], read in the radix; [acc] is what was
    read so far, [None] when no digit was. *)
Fixpoint leading_digits (radix : Z) (acc : option Z) (s : string) : option Z :=
  match s with
  | EmptyString => acc
  | String c r =>
      match digit_value radix c with
      | Some d => leading_digits radix (Some (default 0 acc * radix + d)) r
      | None => acc
      end
  end.

Definition is_x (c : ascii) : bool :=
  let n := nat_of_ascii c in
  ((n =? 120) || (n =? 88))%nat.

(** [parseInt(s)], without a radix; [None] is NaN. *)
Definition parseInt (s : string) : option Z :=
  let s := skip_js_space s in
  let (sign, s) :=
    match s with
    | String c r =>
        if (nat_of_ascii c =? 45)%nat then (-1, r)
        else if (nat_of_ascii c =? 43)%nat then (1, r)
        else (1, s)
    | EmptyString => (1, s)
    end in
  let (radix, s) :=
    match s with
    | String c (String x r) =>
        if (nat_of_ascii c =? 48)%nat && is_x x then (16, r) else (10, s)
    | _ => (10, s)
    end in
  Z.mul sign <$> leading_digits radix None s.

Definition number_text (n : option Z) : string :=
  match n with
  | Some z => pretty z
  | None => "NaN"
  end.

(** The string of [n + v], for a number [n]: a string, an array or an
    object on the right makes it a concatenation, anything else an
    addition of numbers, in which undefined counts as NaN, null as 0 and
    true as 1. The addition is that of the integers, which is the
    addition of JavaScript as long as the operands and the sum are in the
    safe range. *)
Definition plus_text (n : option Z) (v : value) : string :=
  match v with
  | VStr _ | VArr _ | VObj _ => number_text n +:+ to_string v
  | VUndefined => "NaN"
  | VNull => number_text n
  | VBool b => number_text (Z.add (if b then 1 else 0) <$> n)
  | VNum m => number_text (Z.add m <$> n)
  end.

Section Display.

Variable network : list Event -> string -> value -> FetchResult.

Definition displayPricingPlans : M unit :=
  try_catch
    (let! this := the_paymentService in
     let! response := getPricingPlans network this in
     let! success := get_prop response "success" in
     if truthy success then
       let! plans := get_prop response "plans" in
       do! console_log [VStr "Subscription Plans:"] in
       let! subscriptions := get_prop plans "subscriptions" in
       let! entries := Object_entries subscriptions in
       do! forEach entries (fun entry =>
             let plan := snd entry in
             let! name := get_prop plan "name" in
             let! price := get_prop plan "price" in
             do! console_log
                   [VStr (to_string name +:+ ": $" +:+ to_string price
                          +:+ "/month")] in
             let! credits_per_month := get_prop plan "credits_per_month" in
             do! console_log
                   [VStr ("- " +:+
                          (if is_minus_one credits_per_month then "Unlimited"
                           else to_string credits_per_month)
                          +:+ " credits per month")] in
             let! features := get_prop plan "features" in
             let! joined := call_join features ", " in
             do! console_log [VStr ("- Features: " +:+ joined)] in
             console_log [VStr ""]) in
       do! console_log [VStr "Credit Packages:"] in
       let! credits := get_prop plans "credits" in
       let! entries := Object_entries credits in
       forEach entries (fun entry =>
         let amount := fst entry in
         let config := snd entry in
         let! bonus := get_prop config "bonus" in
         let totalCredits := plus_text (parseInt amount) bonus in
         let! price := get_prop config "price" in
         do! console_log
               [VStr (amount +:+ " credits (+" +:+ to_string bonus
                      +:+ " bonus): $" +:+ to_string price)] in
         do! console_log [VStr ("Total: " +:+ totalCredits +:+ " credits")] in
         console_log [VStr ""])
     else ret tt)
    (fun error => console_error "Failed to load pricing plans:" error).

End Display.

(** ** More observations *)

(** The headers object of a request. *)
Definition request_headers (init : value) : list (string * value) :=
  own_props (default VUndefined (obj_get "headers" (own_props init))).

(** The lines written with [console.log], oldest first. *)
Fixpoint logged (evs : list Event) : list (list value) :=
  match evs with
  | [] => []
  | EvConsoleLog args :: r => args :: logged r
  | _ :: r => logged r
  end.

(** A character [JSON.stringify] writes as it is. *)
Definition is_plain_char (c : ascii) : bool :=
  let n := nat_of_ascii c in
  ((32 <=? n) && negb (n =? 34) && negb (n =? 92))%nat.

Fixpoint is_plain (s : string) : bool :=
  match s with
  | EmptyString => true
  | String c r => is_plain_char c && is_plain r
  end.

(** The plans of the pricing page, as the backend lists them. *)
Definition pricing : value :=
  VObj [("success", VBool true);
        ("plans",
         VObj [("subscriptions",
                VObj [("pro",
                       VObj [("name", VStr "Pro"); ("price", VNum 20);
                             ("credits_per_month", VNum (-1));
                             ("features",
                              VArr [VStr "priority"; VStr "history"])])]);
               ("credits",
                VObj [("100", VObj [("bonus", VNum 20); ("price", VNum 5)])])])].

Definition pricing_response : Response :=
  {| status := 200; body := JsonBody pricing |}.

(** A computation that does nothing but write to the console. *)
Definition console_only {A : Type} (m : M A) : Prop :=
  ∀ w, ∃ res evs,
    m w = (res, with_events (events w ++ evs) w)
    ∧ requests evs = []
    ∧ Forall (λ e, ∃ args, e = EvConsoleLog args) evs.

Fixpoint all_digits (s : string) : bool :=
  match s with
  | EmptyString => true
  | String c r =>
      let n := nat_of_ascii c in
      ((48 <=? n) && (n <=? 57))%nat && all_digits r
  end.

(** The packages of the pricing page: amount, bonus and price of each. *)
Definition package_entry (pkg : Z * Z * Z) : string * value :=
  (pretty pkg.1.1,
   VObj [("bonus", VNum pkg.1.2); ("price", VNum pkg.2)]).

Definition packages_only (pkgs : list (Z * Z * Z)) : value :=
  VObj [("success", VBool true);
        ("plans",
         VObj [("subscriptions", VObj []);
               ("credits", VObj (map package_entry pkgs))])].

Definition package_lines (pkg : Z * Z * Z) : list (list value) :=
  [[VStr (pretty pkg.1.1 +:+ " credits (+" +:+ pretty pkg.1.2
          +:+ " bonus): $" +:+ pretty pkg.2)];
   [VStr ("Total: " +:+ pretty (pkg.1.1 + pkg.1.2) +:+ " credits")];
   [VStr ""]].

(** A value of [PORT] made of blanks only. *)
Fixpoint all_ifs (s : string) : bool :=
  match s with
  | EmptyString => true
  | String c r => StartSh.is_ifs c && all_ifs r
  end.

(** A network that is down. *)
Definition offline : list Event -> string -> value -> FetchResult :=
  fun _ _ _ => NetworkFailure.

Definition refused : value :=
  VObj [("success", VBool false); ("error", VStr "card declined")].

Definition refused_response : Response :=
  {| status := 200; body := JsonBody refused |}.

Definition null_response : Response :=
  {| status := 200; body := JsonBody VNull |}.


Definition packages_response : Response :=
  {| status := 200; body := JsonBody (packages_only [(100, 20, 5); (500, 150, 20)]) |}.

(** ** Where the model is exact *)

(** The safe integers: the ones JavaScript holds exactly and prints in
    plain decimal. *)
Definition safe_int (n : Z) : bool :=
  (-9007199254740992 <? n) && (n <? 9007199254740992).

(** The values ToString does not throw on: no object with a [toString]
    property of its own, at the top or among the elements of an array,
    which are written through their own ToString. *)
Fixpoint convertible (v : value) : bool :=
  match v with
  | VObj o =>
      match obj_get "toString" o with
      | Some _ => false
      | None => true
      end
  | VArr l => forallb convertible l
  | _ => true
  end.

(** The values whose ToString is [to_string]: convertible, and every
    number written is a safe integer. *)
Fixpoint stringable (v : value) : bool :=
  match v with
  | VNum n => safe_int n
  | VObj o =>
      match obj_get "toString" o with
      | Some _ => false
      | None => true
      end
  | VArr l => forallb stringable l
  | _ => true
  end.

(** A package whose amount, bonus, price and total are safe integers,
    the amount not negative. *)
Definition safe_package (pkg : Z * Z * Z) : Prop :=
  0 ≤ pkg.1.1
  ∧ safe_int pkg.1.1 = true
  ∧ safe_int pkg.1.2 = true
  ∧ safe_int (pkg.1.1 + pkg.1.2) = true
  ∧ safe_int pkg.2 = true.

(** * Properties *)

(** ** Objects *)

Lemma obj_get_set_eq k v o : obj_get k (obj_set k v o) = Some v.
Proof.
  induction o as [|[k' v'] r IH]; simpl.
  - by rewrite String.eqb_refl.
  - destruct (String.eqb k' k) eqn:E; simpl.
    + by rewrite String.eqb_refl.
    + by rewrite E.
Qed.

Lemma obj_get_set_ne k k' v o :
  k ≠ k' → obj_get k (obj_set k' v o) = obj_get k o.
Proof.
  intros Hne. induction o as [|[k0 v0] r IH]; simpl.
  - destruct (String.eqb k' k) eqn:E; [|done].
    apply String.eqb_eq in E. congruence.
  - destruct (String.eqb k0 k') eqn:E; simpl.
    + apply String.eqb_eq in E. subst k0.
      destruct (String.eqb k' k) eqn:E'; [|done].
      apply String.eqb_eq in E'. congruence.
    + by rewrite IH.
Qed.

Lemma obj_get_spread_absent k src target :
  obj_get k src = None → obj_get k (spread src target) = obj_get k target.
Proof.
  revert target. induction src as [|[k' v'] r IH]; intros target H; [done|].
  simpl in H. destruct (String.eqb k' k) eqn:E; [done|].
  unfold spread in *. simpl. rewrite IH by done.
  apply obj_get_set_ne. apply String.eqb_neq in E. congruence.
Qed.

Lemma obj_get_spread_present k src target :
  obj_get k src ≠ None →
  ∃ v, In (k, v) src ∧ obj_get k (spread src target) = Some v.
Proof.
  revert target. induction src as [|[k' v'] r IH]; intros target H; [done|].
  unfold spread. simpl. fold (spread r (obj_set k' v' target)).
  destruct (obj_get k r) as [v|] eqn:Hr.
  - destruct (IH (obj_set k' v' target)) as (x & Hin & Hx); [done|].
    exists x. split; [by right | done].
  - simpl in H. destruct (String.eqb k' k) eqn:E; [|by rewrite Hr in H].
    apply String.eqb_eq in E. subst k'.
    exists v'. split; [by left|].
    rewrite obj_get_spread_absent by done. apply obj_get_set_eq.
Qed.

Lemma header_of_init name headers o :
  header name (VObj (obj_set "headers" (VObj headers) o)) = obj_get name headers.
Proof. unfold header. simpl. by rewrite obj_get_set_eq. Qed.

Lemma requests_app evs evs' : requests (evs ++ evs') = requests evs ++ requests evs'.
Proof.
  induction evs as [|e r IH]; [done|].
  destruct e; simpl; by rewrite IH.
Qed.

(** ** Responses *)

Lemma ok_in_range r : 200 ≤ status r ≤ 299 → ok r = true.
Proof. intros H. unfold ok. apply andb_true_iff. split; apply Z.leb_le; lia. Qed.

Lemma ok_out_of_range r : ¬ (200 ≤ status r ≤ 299) → ok r = false.
Proof.
  intros H. unfold ok. apply andb_false_iff.
  destruct (Z.leb_spec 200 (status r)); [|by left].
  destruct (Z.leb_spec (status r) 299); [lia|by right].
Qed.

(** ** One request, run *)

Section Request.

Variable network : list Event -> string -> value -> FetchResult.

(** What a call of [makeAuthenticatedRequest] does, step by step: the
    headers it builds, the one request it hands to [fetch], and how the
    answer is turned into a result. *)
Lemma makeAuthenticatedRequest_run this url options w :
  options ≠ VNull →
  let headers :=
    let base :=
      spread (extra_headers options) [("Content-Type", VStr "application/json")] in
    if truthy (authToken this)
    then obj_set "Authorization"
           (VStr ("Bearer " +:+ to_string (authToken this))) base
    else base in
  let init :=
    VObj (obj_set "headers" (VObj headers)
            (spread (own_props (param_default options (VObj []))) [])) in
  let target := to_string (apiBaseUrl this) +:+ to_string url in
  makeAuthenticatedRequest network this url options w =
    match network (events w) target init with
    | NetworkFailure =>
        (Throw TypeError, with_events (events w ++ [EvFetch target init]) w)
    | Responded r =>
        if ok r then
          (match body r with
           | JsonBody v => Return v
           | NotJson => Throw SyntaxError
           end,
           with_events (events w ++ [EvFetch target init; EvResponseJson r]) w)
        else
          (Throw (Error ("HTTP error! status: " +:+ pretty (status r))),
           with_events (events w ++ [EvFetch target init]) w)
    end.
Proof.
  intros Hnull headers init target.
  assert (Hget : get_prop (param_default options (VObj [])) "headers" w
                 = (Return (default VUndefined
                      (obj_get "headers"
                         (own_props (param_default options (VObj []))))), w))
    by (by destruct options).
  unfold makeAuthenticatedRequest, bind. rewrite Hget.
  fold (extra_headers options). fold headers. fold init. fold target.
  unfold fetch, emit, with_events. simpl.
  destruct (network (events w) target init) as [|r]; [done|].
  destruct (ok r); simpl; [|done].
  unfold response_json, bind, emit, ret, throw. simpl.
  rewrite <- app_assoc. by destruct (body r).
Qed.

(** With [options] null the read of [options.headers] throws and nothing
    is sent. *)
Lemma makeAuthenticatedRequest_null this url w :
  makeAuthenticatedRequest network this url VNull w = (Throw TypeError, w).
Proof. done. Qed.

(** Every call with an options bundle sends exactly one request. *)
Lemma makeAuthenticatedRequest_sends this url options w :
  options ≠ VNull →
  sends (makeAuthenticatedRequest network this url options) w
    (to_string (apiBaseUrl this) +:+ to_string url)
    (λ init,
       init
       = VObj
           (obj_set "headers"
              (VObj
                 (if truthy (authToken this)
                  then obj_set "Authorization"
                         (VStr ("Bearer " +:+ to_string (authToken this)))
                         (spread (extra_headers options)
                            [("Content-Type", VStr "application/json")])
                  else spread (extra_headers options)
                         [("Content-Type", VStr "application/json")]))
              (spread (own_props (param_default options (VObj []))) []))).
Proof.
  intros Hnull. eexists. split; [|reflexivity].
  rewrite makeAuthenticatedRequest_run by done.
  destruct (network _ _ _) as [|r]; [|destruct (ok r)]; simpl;
    rewrite requests_app; reflexivity.
Qed.

Lemma sends_impl {A : Type} (m : M A) w target (P Q : value -> Prop) :
  sends m w target P → (∀ init, P init → Q init) → sends m w target Q.
Proof. intros (init & Hreq & HP) HPQ. exists init. auto. Qed.

End Request.

(** Runs the request of the goal against the recorded answer [Hnet]. *)
Ltac answered Hnet :=
  rewrite makeAuthenticatedRequest_run by done; rewrite Hnet.

(** ** The request wrapper *)

Section Wrapper.

Variable network : list Event -> string -> value -> FetchResult.

Lemma sends_intro this url options w (P : value -> Prop) :
  options ≠ VNull →
  (∀ init,
     header "Content-Type" init
     = obj_get "Content-Type"
         (spread (extra_headers options)
            [("Content-Type", VStr "application/json")]) →
     header "Authorization" init
     = (if truthy (authToken this)
        then Some (VStr ("Bearer " +:+ to_string (authToken this)))
        else obj_get "Authorization"
               (spread (extra_headers options)
                  [("Content-Type", VStr "application/json")])) →
     P init) →
  sends (makeAuthenticatedRequest network this url options) w
    (to_string (apiBaseUrl this) +:+ to_string url) P.
Proof.
  intros Hnull HP.
  apply (sends_impl _ _ _ _ _
           (makeAuthenticatedRequest_sends network this url options w Hnull)).
  intros init ->. apply HP; rewrite header_of_init;
    destruct (truthy (authToken this)); try done.
  - by apply obj_get_set_ne.
  - apply obj_get_set_eq.
Qed.

(** C1, amended. After [setAuthToken(t)] with a non-empty string [t], a
    call of [makeAuthenticatedRequest] sends a request whose Authorization
    header is [Bearer t], whatever headers the caller passes. On a
    default-constructed service on which no token was set, the request has
    no Authorization header unless the caller's own [options.headers] has
    one. *)
Theorem C1_bearer_token this t url options w :
  t ≠ "" →
  options ≠ VNull →
  sends (makeAuthenticatedRequest network (setAuthToken (VStr t) this) url options)
    w (to_string (apiBaseUrl this) +:+ to_string url)
    (λ init, header "Authorization" init = Some (VStr ("Bearer " +:+ t)))
  ∧ (obj_get "Authorization" (extra_headers options) = None →
     sends (makeAuthenticatedRequest network (constructor VUndefined VUndefined)
              url options)
       w ("http://localhost:8000" +:+ to_string url)
       (λ init, header "Authorization" init = None)).
Proof.
  intros Ht Hnull. split.
  - apply (sends_intro (setAuthToken (VStr t) this)); [done|].
    intros init _ ->. simpl.
    destruct (String.eqb t "") eqn:E; [|done].
    by apply String.eqb_eq in E.
  - intros Hextra.
    apply (sends_intro (constructor VUndefined VUndefined)); [done|].
    intros init _ ->. simpl. by rewrite obj_get_spread_absent.
Qed.

(** C4, amended. Every request carries [Content-Type: application/json]
    when the caller's [options.headers] has no Content-Type entry; when it
    has one, the request carries a value the caller gave instead. *)
Theorem C4_content_type this url options w :
  options ≠ VNull →
  sends (makeAuthenticatedRequest network this url options)
    w (to_string (apiBaseUrl this) +:+ to_string url)
    (λ init,
       (obj_get "Content-Type" (extra_headers options) = None →
        header "Content-Type" init = Some (VStr "application/json"))
       ∧ (obj_get "Content-Type" (extra_headers options) ≠ None →
          ∃ v, In ("Content-Type", v) (extra_headers options)
               ∧ header "Content-Type" init = Some v)).
Proof.
  intros Hnull. apply sends_intro; [done|].
  intros init -> _. split; intros Hextra.
  - by rewrite obj_get_spread_absent.
  - by apply obj_get_spread_present.
Qed.


(** C10, amended. After [setAuthToken] with a falsy value (the empty
    string, null, undefined, false, 0) every call behaves exactly as on a
    service whose token is null: same result, same request. That request
    has no Authorization header unless the caller's own [options.headers]
    has one. *)
Theorem C10_falsy_token this t url options w :
  truthy t = false →
  makeAuthenticatedRequest network (setAuthToken t this) url options w
  = makeAuthenticatedRequest network
      {| apiBaseUrl := apiBaseUrl this; authToken := VNull |} url options w
  ∧ (options ≠ VNull →
     obj_get "Authorization" (extra_headers options) = None →
     sends (makeAuthenticatedRequest network (setAuthToken t this) url options)
       w (to_string (apiBaseUrl this) +:+ to_string url)
       (λ init, header "Authorization" init = None)).
Proof.
  intros Ht. split.
  - unfold makeAuthenticatedRequest. simpl. by rewrite Ht.
  - intros Hnull Hextra.
    apply (sends_intro (setAuthToken t this)); [done|].
    intros init _ ->. simpl. rewrite Ht. by rewrite obj_get_spread_absent.
Qed.

(** C2. When the response has a status outside 200..299 the call throws
    an error whose message ends in the status, in decimal, so that the
    status can be read back from it; the body is never parsed: the fetch
    is the only call made on the platform. *)
Theorem C2_http_error this url options w r :
  options ≠ VNull →
  (∀ target init, network (events w) target init = Responded r) →
  ¬ (200 ≤ status r ≤ 299) →
  (makeAuthenticatedRequest network this url options w).1
  = Throw (Error ("HTTP error! status: " +:+ pretty (status r)))
  ∧ (∀ n : Z,
       Error ("HTTP error! status: " +:+ pretty n)
       = Error ("HTTP error! status: " +:+ pretty (status r)) →
       n = status r)
  ∧ ∃ init,
      events (makeAuthenticatedRequest network this url options w).2
      = events w
          ++ [EvFetch (to_string (apiBaseUrl this) +:+ to_string url) init].
Proof.
  intros Hnull Hnet Hstatus. apply ok_out_of_range in Hstatus.
  answered Hnet. rewrite Hstatus. simpl. split; [done|]. split.
  - intros n Hn. simplify_eq/=. by apply (inj pretty).
  - eauto.
Qed.

(** C3. When the response has a status in 200..299 and its body is the
    JSON value [v], the call returns [v]. *)
Theorem C3_json_round_trip this url options w r v :
  options ≠ VNull →
  (∀ target init, network (events w) target init = Responded r) →
  200 ≤ status r ≤ 299 →
  body r = JsonBody v →
  (makeAuthenticatedRequest network this url options w).1 = Return v.
Proof.
  intros Hnull Hnet Hstatus Hbody. apply ok_in_range in Hstatus.
  answered Hnet. by rewrite Hstatus, Hbody.
Qed.

(** A success whose body is not JSON is no value to return: the parse is
    attempted and its [SyntaxError] reaches the caller. *)
Lemma makeAuthenticatedRequest_not_json this url options w r :
  options ≠ VNull →
  (∀ target init, network (events w) target init = Responded r) →
  200 ≤ status r ≤ 299 →
  body r = NotJson →
  (makeAuthenticatedRequest network this url options w).1 = Throw SyntaxError.
Proof.
  intros Hnull Hnet Hstatus Hbody. apply ok_in_range in Hstatus.
  answered Hnet. by rewrite Hstatus, Hbody.
Qed.

End Wrapper.

(** ** The request wrapper, on concrete calls *)

Example no_content_is_no_value :
  (makeAuthenticatedRequest (answers no_content)
     (constructor VUndefined VUndefined) (VStr "/pricing/plans") VUndefined
     fresh).1
  = Throw SyntaxError.
Proof. reflexivity. Qed.

Example stringify_plan :
  JSON_stringify (VObj [("plan", VStr "pro"); ("coupon", VUndefined)])
  = VStr plan_pro.
Proof. reflexivity. Qed.

Lemma C1_bearer_token_witness :
  "tok_live_42" ≠ ""
  ∧ plain_text ≠ VNull
  ∧ obj_get "Authorization" (extra_headers plain_text) = None
  ∧ sends (makeAuthenticatedRequest (answers status_ok)
             (setAuthToken (VStr "tok_live_42") (constructor VUndefined VUndefined))
             (VStr "/subscriptions/status") plain_text)
      fresh "http://localhost:8000/subscriptions/status"
      (λ init, header "Authorization" init = Some (VStr "Bearer tok_live_42"))
  ∧ sends (makeAuthenticatedRequest (answers status_ok)
             (constructor VUndefined VUndefined)
             (VStr "/subscriptions/status") plain_text)
      fresh "http://localhost:8000/subscriptions/status"
      (λ init, header "Authorization" init = None).
Proof.
  split; [done|]. split; [done|]. split; [reflexivity|].
  destruct (C1_bearer_token (answers status_ok)
              (constructor VUndefined VUndefined) "tok_live_42"
              (VStr "/subscriptions/status") plain_text fresh)
    as [Hset Hdefault]; [done|done|].
  split; [exact Hset | apply Hdefault; reflexivity].
Defined.

(** C1 as stated fails: a default-constructed service on which no token
    was ever set sends the Authorization header the caller passed in
    [options.headers]. *)
Lemma C1_counterexample :
  sends (makeAuthenticatedRequest (answers status_ok)
           (constructor VUndefined VUndefined)
           (VStr "/subscriptions/status") basic_auth)
    fresh "http://localhost:8000/subscriptions/status"
    (λ init,
       header "Authorization" init = Some (VStr "Basic dXNlcjpwdw==")
       ∧ header "Authorization" init ≠ None).
Proof. eexists. split; [vm_compute; reflexivity|]. split; done. Qed.

Lemma C4_content_type_witness :
  basic_auth ≠ VNull
  ∧ obj_get "Content-Type" (extra_headers basic_auth) = None
  ∧ sends (makeAuthenticatedRequest (answers status_ok)
             (constructor VUndefined VUndefined)
             (VStr "/subscriptions/status") basic_auth)
      fresh "http://localhost:8000/subscriptions/status"
      (λ init, header "Content-Type" init = Some (VStr "application/json"))
  ∧ plain_text ≠ VNull
  ∧ obj_get "Content-Type" (extra_headers plain_text) ≠ None
  ∧ sends (makeAuthenticatedRequest (answers status_ok)
             (constructor VUndefined VUndefined) (VStr "/notes") plain_text)
      fresh "http://localhost:8000/notes"
      (λ init, header "Content-Type" init = Some (VStr "text/plain")).
Proof.
  split; [done|]. split; [reflexivity|]. split.
  { apply (sends_impl _ _ _ _ _
             (C4_content_type (answers status_ok)
                (constructor VUndefined VUndefined)
                (VStr "/subscriptions/status") basic_auth fresh
                ltac:(done))).
    intros init [Hdefault _]. by apply Hdefault. }
  split; [done|]. split; [done|].
  apply (sends_impl _ _ _ _ _
           (C4_content_type (answers status_ok)
              (constructor VUndefined VUndefined) (VStr "/notes") plain_text
              fresh ltac:(done))).
  intros init [_ Hcaller].
  destruct Hcaller as (v & [[= <-] | []] & Hv); done.
Defined.

(** C4 as stated fails: a Content-Type among the caller's extra headers
    replaces [application/json]. *)
Lemma C4_counterexample :
  sends (makeAuthenticatedRequest (answers status_ok)
           (constructor VUndefined VUndefined) (VStr "/notes") plain_text)
    fresh "http://localhost:8000/notes"
    (λ init,
       header "Content-Type" init = Some (VStr "text/plain")
       ∧ header "Content-Type" init ≠ Some (VStr "application/json")).
Proof. eexists. split; [vm_compute; reflexivity|]. split; done. Qed.


Lemma C10_falsy_token_witness :
  truthy (VStr "") = false
  ∧ VUndefined ≠ VNull
  ∧ obj_get "Authorization" (extra_headers VUndefined) = None
  ∧ makeAuthenticatedRequest (answers status_ok)
      (setAuthToken (VStr "") (constructor VUndefined (VStr "tok_live_42")))
      (VStr "/subscriptions/status") VUndefined fresh
    = makeAuthenticatedRequest (answers status_ok)
        {| apiBaseUrl := VStr "http://localhost:8000"; authToken := VNull |}
        (VStr "/subscriptions/status") VUndefined fresh
  ∧ sends (makeAuthenticatedRequest (answers status_ok)
             (setAuthToken (VStr "") (constructor VUndefined (VStr "tok_live_42")))
             (VStr "/subscriptions/status") VUndefined)
      fresh "http://localhost:8000/subscriptions/status"
      (λ init, header "Authorization" init = None).
Proof.
  split; [reflexivity|]. split; [done|]. split; [reflexivity|].
  destruct (C10_falsy_token (answers status_ok)
              (constructor VUndefined (VStr "tok_live_42")) (VStr "")
              (VStr "/subscriptions/status") VUndefined fresh)
    as [Hsame Hnone]; [reflexivity|].
  split; [exact Hsame | apply Hnone; done].
Defined.

(** C10 as stated fails: after [setAuthToken("")] a request still carries
    the Authorization header the caller passed in [options.headers]. *)
Lemma C10_counterexample :
  sends (makeAuthenticatedRequest (answers status_ok)
           (setAuthToken (VStr "") (constructor VUndefined VUndefined))
           (VStr "/subscriptions/status") basic_auth)
    fresh "http://localhost:8000/subscriptions/status"
    (λ init,
       header "Authorization" init = Some (VStr "Basic dXNlcjpwdw==")
       ∧ header "Authorization" init ≠ None).
Proof. eexists. split; [vm_compute; reflexivity|]. split; done. Qed.

Lemma C2_http_error_witness :
  VUndefined ≠ VNull
  ∧ ¬ (200 ≤ status not_found ≤ 299)
  ∧ (makeAuthenticatedRequest (answers not_found)
       (constructor VUndefined VUndefined) (VStr "/pricing/plans")
       VUndefined fresh).1
    = Throw (Error "HTTP error! status: 404").
Proof.
  split; [done|]. split; [simpl; lia|].
  apply (C2_http_error (answers not_found) (constructor VUndefined VUndefined)
           (VStr "/pricing/plans") VUndefined fresh not_found);
    [done | reflexivity | simpl; lia].
Defined.

Lemma C3_json_round_trip_witness :
  VUndefined ≠ VNull
  ∧ 200 ≤ status status_ok ≤ 299
  ∧ (makeAuthenticatedRequest (answers status_ok)
       (constructor VUndefined VUndefined) (VStr "/subscriptions/status")
       VUndefined fresh).1
    = Return free_tier.
Proof.
  split; [done|]. split; [simpl; lia|].
  apply (C3_json_round_trip (answers status_ok)
           (constructor VUndefined VUndefined)
           (VStr "/subscriptions/status") VUndefined fresh status_ok free_tier);
    [done | reflexivity | simpl; lia | reflexivity].
Defined.

(** ** The handlers *)

Section Handlers.

Variable network : list Event -> string -> value -> FetchResult.
Variable location_search : list (string * string).

(** C5. [createSubscription("pro")] sends a POST to
    [/subscriptions/create] whose body is the text [{"plan":"pro"}]. When
    the answer is a success carrying [checkout_created],
    [handleSubscriptionPurchase("pro")] opens the checkout URL in a new
    browsing context and stores [cs_1] under [stripe_session_id]. *)
Theorem C5_subscription_purchase w :
  let target :=
    to_string (apiBaseUrl (paymentService w)) +:+ "/subscriptions/create" in
  (∀ this w0,
     sends (createSubscription network this (VStr "pro")) w0
       (to_string (apiBaseUrl this) +:+ "/subscriptions/create")
       (λ init,
          obj_get "method" (own_props init) = Some (VStr "POST")
          ∧ obj_get "body" (own_props init) = Some (VStr plan_pro)))
  ∧ ∀ r,
      (∀ url init, network (events w) url init = Responded r) →
      200 ≤ status r ≤ 299 →
      body r = JsonBody checkout_created →
      ∃ init,
        (handleSubscriptionPurchase network (VStr "pro") w).2
        = {| paymentService := paymentService w;
             localStorage := <["stripe_session_id" := "cs_1"]> (localStorage w);
             events :=
               events w
                 ++ [EvFetch target init; EvResponseJson r;
                     EvWindowOpen (VStr "https://pay.example/cs_1")
                       (VStr "_blank")] |}.
Proof.
  intros target. split.
  - intros this w0. unfold createSubscription.
    eapply sends_impl; [by apply makeAuthenticatedRequest_sends|].
    intros init ->. split; reflexivity.
  - intros r Hnet Hstatus Hbody. apply ok_in_range in Hstatus. eexists.
    unfold handleSubscriptionPurchase, try_catch, bind, the_paymentService,
      createSubscription.
    answered Hnet. rewrite Hstatus, Hbody. simpl.
    rewrite <- !app_assoc. reflexivity.
Qed.

(** C6. [purchaseCredits(100)] sends a POST to [/credits/purchase] whose
    body is the text [{"amount":100}]. When the answer is a success
    carrying [credits_bought], [handleCreditPurchase(100)] shows the user
    a message that names the 120 credits. *)
Theorem C6_credit_purchase w :
  let target :=
    to_string (apiBaseUrl (paymentService w)) +:+ "/credits/purchase" in
  (∀ this w0,
     sends (purchaseCredits network this (VNum 100)) w0
       (to_string (apiBaseUrl this) +:+ "/credits/purchase")
       (λ init,
          obj_get "method" (own_props init) = Some (VStr "POST")
          ∧ obj_get "body" (own_props init) = Some (VStr amount_100)))
  ∧ ∀ r,
      (∀ url init, network (events w) url init = Responded r) →
      200 ≤ status r ≤ 299 →
      body r = JsonBody credits_bought →
      ∃ init,
        events (handleCreditPurchase network (VNum 100) w).2
        = events w
            ++ [EvFetch target init; EvResponseJson r;
                EvWindowOpen VUndefined (VStr "_blank");
                EvAlert "You'll receive 120 credits after payment!"].
Proof.
  intros target. split.
  - intros this w0. unfold purchaseCredits.
    eapply sends_impl; [by apply makeAuthenticatedRequest_sends|].
    intros init ->. split; reflexivity.
  - intros r Hnet Hstatus Hbody. apply ok_in_range in Hstatus. eexists.
    unfold handleCreditPurchase, try_catch, bind, the_paymentService,
      purchaseCredits.
    answered Hnet. rewrite Hstatus, Hbody. simpl.
    rewrite <- !app_assoc. reflexivity.
Qed.

(** [updateUserInterface] only writes to the console, and returns
    normally on everything but null and undefined. *)
Lemma updateUserInterface_run userStatus w :
  ∃ res evs,
    updateUserInterface userStatus w = (res, with_events (events w ++ evs) w)
    ∧ requests evs = []
    ∧ (userStatus ≠ VNull → userStatus ≠ VUndefined → res = Return tt).
Proof.
  destruct w as [svc store evs0].
  assert (Hthrow : ∃ res evs,
            (Throw TypeError : Result unit,
             {| paymentService := svc; localStorage := store; events := evs0 |})
            = (res, with_events (evs0 ++ evs)
                      {| paymentService := svc; localStorage := store;
                         events := evs0 |})
            ∧ requests evs = []
            ∧ (∀ v : value, v ≠ v → res = Return tt)).
  { exists (Throw TypeError), []. unfold with_events. simpl.
    rewrite app_nil_r. done. }
  assert (Hrun : ∀ o : list (string * value),
            ∃ evs,
              (let! success := ret (default VUndefined (obj_get "success" o)) in
               if truthy success then
                 let! tier := ret (default VUndefined (obj_get "tier" o)) in
                 let! credits := ret (default VUndefined (obj_get "credits" o)) in
                 do! console_log [VStr ("User tier: " +:+ to_string tier)] in
                 console_log
                   [VStr ("Available credits: " +:+
                          (if is_minus_one credits then "Unlimited"
                           else to_string credits))]
               else ret tt)
                {| paymentService := svc; localStorage := store; events := evs0 |}
              = (Return tt,
                 with_events (evs0 ++ evs)
                   {| paymentService := svc; localStorage := store;
                      events := evs0 |})
              ∧ requests evs = []).
  { intros o. unfold bind, ret, console_log, emit, with_events. simpl.
    destruct (truthy (default VUndefined (obj_get "success" o))); simpl.
    - eexists [_; _]. rewrite <- app_assoc. done.
    - exists []. by rewrite app_nil_r. }
  destruct userStatus as [| |b|n|s|l|o];
    try (destruct Hthrow as (res & evs & Heq & Hreq & Hres);
         exists res, evs; split; [exact Heq|]; split; [exact Hreq|];
         intros H1 H2; by apply (Hres VNull));
    match goal with
    | |- context [updateUserInterface ?v] =>
        destruct (Hrun (own_props v)) as (evs & Heq & Hreq);
        exists (Return tt), evs; split; [exact Heq|]; by split
    end.
Qed.

(** C7, amended. When the first [session_id] of the page URL is not
    empty, [handlePaymentSuccess] asks for [/subscriptions/status] through
    [getSubscriptionStatus]; it removes [stripe_session_id] from local
    storage when that call succeeds with a JSON body that is not null and
    whose [tier] and [credits] can be converted to strings, and leaves
    local storage as it is when the call fails on the status. Without a
    [session_id], or when the first one is empty, it does nothing. *)
Theorem C7_payment_success w :
  (∀ s,
     URLSearchParams_get location_search "session_id" = VStr s →
     s ≠ "" →
     sends (handlePaymentSuccess network location_search) w
       (to_string (apiBaseUrl (paymentService w)) +:+ "/subscriptions/status")
       (λ _, True)
     ∧ (∀ r v,
          (∀ url init, network (events w) url init = Responded r) →
          200 ≤ status r ≤ 299 →
          body r = JsonBody v →
          v ≠ VNull →
          v ≠ VUndefined →
          convertible (default VUndefined (obj_get "tier" (own_props v)))
          = true →
          convertible (default VUndefined (obj_get "credits" (own_props v)))
          = true →
          localStorage (handlePaymentSuccess network location_search w).2
          = delete "stripe_session_id" (localStorage w))
     ∧ (∀ r,
          (∀ url init, network (events w) url init = Responded r) →
          ¬ (200 ≤ status r ≤ 299) →
          localStorage (handlePaymentSuccess network location_search w).2
          = localStorage w))
  ∧ (URLSearchParams_get location_search "session_id" = VNull
     ∨ URLSearchParams_get location_search "session_id" = VStr "" →
     handlePaymentSuccess network location_search w = (Return tt, w)).
Proof.
  split.
  - intros s Hs Hne.
    assert (Htruthy : truthy (VStr s) = true).
    { simpl. destruct (String.eqb s "") eqn:E; [|done].
      by apply String.eqb_eq in E. }
    unfold handlePaymentSuccess. rewrite Hs, Htruthy.
    split; [|split].
    + unfold sends, try_catch, bind, the_paymentService, getSubscriptionStatus.
      rewrite makeAuthenticatedRequest_run by done. cbv zeta.
      set (init := VObj _). set (target := _ +:+ _).
      exists init. split; [|done].
      destruct (network (events w) target init) as [|r].
      { simpl. rewrite !requests_app. simpl. by rewrite app_nil_r. }
      destruct (ok r).
      * destruct (body r) as [v|].
        -- unfold console_log, emit. simpl.
           match goal with
           | |- context [updateUserInterface v ?w1] =>
               destruct (updateUserInterface_run v w1)
                 as (res & evs & -> & Hreq & _)
           end.
           destruct res; simpl; rewrite !requests_app, ?Hreq; simpl;
             by rewrite ?app_nil_r.
        -- simpl. rewrite !requests_app. simpl. by rewrite app_nil_r.
      * simpl. rewrite !requests_app. simpl. by rewrite app_nil_r.
    + intros r v Hnet Hstatus Hbody Hnull Hundef _ _.
      unfold try_catch, bind, the_paymentService, getSubscriptionStatus.
      answered Hnet. rewrite (ok_in_range _ Hstatus), Hbody.
      unfold console_log, emit. simpl.
      match goal with
      | |- context [updateUserInterface v ?w1] =>
          destruct (updateUserInterface_run v w1)
            as (res & evs & -> & _ & Hres)
      end.
      by rewrite (Hres Hnull Hundef).
    + intros r Hnet Hstatus.
      unfold try_catch, bind, the_paymentService, getSubscriptionStatus.
      answered Hnet. by rewrite (ok_out_of_range _ Hstatus).
  - intros Hs. unfold handlePaymentSuccess. by destruct Hs as [-> | ->].
Qed.

End Handlers.

(** ** The handlers, on concrete pages *)

Lemma C5_subscription_purchase_witness :
  200 ≤ status checkout_response ≤ 299
  ∧ body checkout_response = JsonBody checkout_created
  ∧ ∃ init,
      (handleSubscriptionPurchase (answers checkout_response) (VStr "pro") fresh).2
      = {| paymentService := paymentService fresh;
           localStorage := <["stripe_session_id" := "cs_1"]> ∅;
           events :=
             [EvFetch "http://localhost:8000/subscriptions/create" init;
              EvResponseJson checkout_response;
              EvWindowOpen (VStr "https://pay.example/cs_1") (VStr "_blank")] |}.
Proof.
  split; [simpl; lia|]. split; [reflexivity|].
  destruct (C5_subscription_purchase (answers checkout_response) fresh)
    as [_ Hpurchase].
  apply (Hpurchase checkout_response); [reflexivity | simpl; lia | reflexivity].
Defined.

Lemma C6_credit_purchase_witness :
  200 ≤ status credits_response ≤ 299
  ∧ body credits_response = JsonBody credits_bought
  ∧ ∃ init,
      events (handleCreditPurchase (answers credits_response) (VNum 100) fresh).2
      = [EvFetch "http://localhost:8000/credits/purchase" init;
         EvResponseJson credits_response;
         EvWindowOpen VUndefined (VStr "_blank");
         EvAlert "You'll receive 120 credits after payment!"].
Proof.
  split; [simpl; lia|]. split; [reflexivity|].
  destruct (C6_credit_purchase (answers credits_response) fresh)
    as [_ Hpurchase].
  apply (Hpurchase credits_response); [reflexivity | simpl; lia | reflexivity].
Defined.

Lemma C7_payment_success_witness :
  URLSearchParams_get [("session_id", "cs_1")] "session_id" = VStr "cs_1"
  ∧ "cs_1" ≠ ""
  ∧ 200 ≤ status status_ok ≤ 299
  ∧ ¬ (200 ≤ status server_error ≤ 299)
  ∧ convertible (default VUndefined (obj_get "tier" (own_props free_tier)))
    = true
  ∧ convertible (default VUndefined (obj_get "credits" (own_props free_tier)))
    = true
  ∧ URLSearchParams_get [("page", "2")] "session_id" = VNull
  ∧ sends (handlePaymentSuccess (answers status_ok) [("session_id", "cs_1")])
      awaiting_payment "http://localhost:8000/subscriptions/status" (λ _, True)
  ∧ localStorage
      (handlePaymentSuccess (answers status_ok) [("session_id", "cs_1")]
         awaiting_payment).2
    = delete "stripe_session_id" (localStorage awaiting_payment)
  ∧ localStorage
      (handlePaymentSuccess (answers server_error) [("session_id", "cs_1")]
         awaiting_payment).2
    = localStorage awaiting_payment
  ∧ handlePaymentSuccess (answers status_ok) [("page", "2")] awaiting_payment
    = (Return tt, awaiting_payment).
Proof.
  split; [reflexivity|]. split; [done|]. split; [simpl; lia|].
  split; [simpl; lia|]. split; [reflexivity|]. split; [reflexivity|].
  split; [reflexivity|].
  destruct (C7_payment_success (answers status_ok) [("session_id", "cs_1")]
              awaiting_payment) as [Hpresent _].
  destruct (Hpresent "cs_1") as (Hsends & Hremoved & _); [reflexivity|done|].
  destruct (C7_payment_success (answers server_error) [("session_id", "cs_1")]
              awaiting_payment) as [Hfailing _].
  destruct (Hfailing "cs_1") as (_ & _ & Hkept); [reflexivity|done|].
  destruct (C7_payment_success (answers status_ok) [("page", "2")]
              awaiting_payment) as [_ Habsent].
  split; [exact Hsends|]. split.
  { apply (Hremoved status_ok free_tier);
      [reflexivity | simpl; lia | reflexivity | done | done | reflexivity
      | reflexivity]. }
  split.
  { apply (Hkept server_error); [reflexivity | simpl; lia]. }
  apply Habsent. by left.
Defined.

(** C7 as stated fails twice over. A [session_id] that is present but
    empty starts nothing; and when the status request is answered with
    500, the stored [stripe_session_id] stays where it was. *)
Lemma C7_counterexample :
  (URLSearchParams_get [("session_id", "")] "session_id" = VStr ""
   ∧ handlePaymentSuccess (answers status_ok) [("session_id", "")]
       awaiting_payment
     = (Return tt, awaiting_payment))
  ∧ (URLSearchParams_get [("session_id", "cs_1")] "session_id" = VStr "cs_1"
     ∧ localStorage
         (handlePaymentSuccess (answers server_error) [("session_id", "cs_1")]
            awaiting_payment).2 !! "stripe_session_id"
       = Some "cs_1").
Proof. repeat split. Qed.

(** ** The startup script *)

Section Startup.

Import StartSh.

Variable matches : string -> list string.

Lemma append_cons cur c r :
  (cur +:+ String c EmptyString) +:+ r = cur +:+ String c r.
Proof.
  induction cur as [|a cur IH]; [done|].
  exact (f_equal (String a) IH).
Qed.

Lemma append_empty s : s +:+ "" = s.
Proof.
  induction s as [|a s IH]; [done|].
  exact (f_equal (String a) IH).
Qed.

Lemma fields_no_ifs cur s :
  has_ifs s = false → fields (Some cur) s = [cur +:+ s].
Proof.
  revert cur. induction s as [|c r IH]; intros cur H; simpl in *.
  - by rewrite append_empty.
  - apply orb_false_iff in H as [Hc Hr]. rewrite Hc, IH by done.
    f_equal. apply append_cons.
Qed.

Lemma fields_single s :
  String.eqb s "" = false → has_ifs s = false → fields None s = [s].
Proof.
  intros Hempty Hifs. destruct s as [|c r]; [done|].
  simpl in *. apply orb_false_iff in Hifs as [Hc Hr].
  rewrite Hc. by rewrite fields_no_ifs.
Qed.

Lemma unquoted_single_word (env : gmap string string) name s :
  env !! name = Some s →
  single_word s = true →
  unquoted matches env name = [s].
Proof.
  intros Hget Hword. unfold single_word in Hword.
  apply andb_true_iff in Hword as [Hword Hglob].
  apply andb_true_iff in Hword as [Hempty Hifs].
  apply negb_true_iff in Hglob, Hifs, Hempty.
  unfold unquoted. rewrite Hget. simpl.
  rewrite fields_single by done.
  simpl. unfold glob. by rewrite Hglob.
Qed.

(** C9. The script reads [PORT]; unset (or empty) it becomes 8000. The
    command line it then runs is uvicorn on host 0.0.0.0, on that port,
    with one worker. *)
Theorem C9_start (env : gmap string string) :
  (env !! "PORT" = None ∨ env !! "PORT" = Some "" →
   start matches env
   = {| argv := ["uvicorn"; "main:app"; "--host"; "0.0.0.0";
                 "--port"; "8000"; "--workers"; "1"];
        environ := <["PORT" := "8000"]> env |})
  ∧ (∀ port,
       env !! "PORT" = Some port →
       single_word port = true →
       start matches env
       = {| argv := ["uvicorn"; "main:app"; "--host"; "0.0.0.0";
                     "--port"; port; "--workers"; "1"];
            environ := <["PORT" := port]> env |}).
Proof.
  split.
  - intros Hunset. unfold start.
    assert (Hdefault : use_default (env !! "PORT") "8000" = "8000")
      by (by destruct Hunset as [-> | ->]).
    rewrite Hdefault.
    rewrite (unquoted_single_word _ "PORT" "8000");
      [done | apply lookup_insert_eq | done].
  - intros port Hport Hword. unfold start. rewrite Hport.
    assert (Hset : use_default (Some port) "8000" = port).
    { simpl. destruct (String.eqb port "") eqn:E; [|done].
      apply String.eqb_eq in E. by subst port. }
    rewrite Hset.
    rewrite (unquoted_single_word _ "PORT" port);
      [done | apply lookup_insert_eq | done].
Qed.

End Startup.

Lemma C9_start_witness :
  (∅ : gmap string string) !! "PORT" = None
  ∧ ({["PORT" := "10000"]} : gmap string string) !! "PORT" = Some "10000"
  ∧ StartSh.single_word "10000" = true
  ∧ StartSh.start (λ _, []) ∅
    = {| StartSh.argv := ["uvicorn"; "main:app"; "--host"; "0.0.0.0";
                          "--port"; "8000"; "--workers"; "1"];
         StartSh.environ := {["PORT" := "8000"]} |}
  ∧ StartSh.start (λ _, []) {["PORT" := "10000"]}
    = {| StartSh.argv := ["uvicorn"; "main:app"; "--host"; "0.0.0.0";
                          "--port"; "10000"; "--workers"; "1"];
         StartSh.environ := <["PORT" := "10000"]> {["PORT" := "10000"]} |}.
Proof.
  split; [reflexivity|]. split; [reflexivity|]. split; [reflexivity|].
  split.
  - destruct (C9_start (λ _, []) ∅) as [Hunset _].
    apply Hunset. by left.
  - destruct (C9_start (λ _, []) {["PORT" := "10000"]}) as [_ Hset].
    apply (Hset "10000"); reflexivity.
Defined.

(** * Further properties *)

(** ** Objects stay well formed *)

Lemma obj_get_None k o : obj_get k o = None ↔ k ∉ map fst o.
Proof.
  induction o as [|[k' v'] r IH]; simpl.
  - split; [intros _; apply not_elem_of_nil | done].
  - rewrite not_elem_of_cons.
    destruct (String.eqb k' k) eqn:E.
    + apply String.eqb_eq in E. subst k'. split; [done | by intros [? _]].
    + apply String.eqb_neq in E. rewrite IH. split; [by split | by intros [_ ?]].
Qed.

Lemma obj_set_keys k v o k0 :
  k0 ∈ map fst (obj_set k v o) ↔ k0 = k ∨ k0 ∈ map fst o.
Proof.
  induction o as [|[k' v'] r IH]; simpl.
  - rewrite list_elem_of_singleton. split; [by left|].
    intros [?|H]; [done | by apply elem_of_nil in H].
  - destruct (String.eqb k' k) eqn:E; simpl; rewrite !elem_of_cons.
    + apply String.eqb_eq in E. subst k'. tauto.
    + rewrite IH. tauto.
Qed.

Lemma obj_set_NoDup k v o :
  NoDup (map fst o) → NoDup (map fst (obj_set k v o)).
Proof.
  induction o as [|[k' v'] r IH]; simpl; intros Hnd.
  - apply NoDup_singleton.
  - apply NoDup_cons in Hnd as [Hnotin Hnd].
    destruct (String.eqb k' k) eqn:E; simpl.
    + apply String.eqb_eq in E. subst k'. by apply NoDup_cons.
    + apply String.eqb_neq in E. apply NoDup_cons. split; [|by apply IH].
      rewrite obj_set_keys. by intros [?|?].
Qed.

Lemma spread_NoDup src target :
  NoDup (map fst target) → NoDup (map fst (spread src target)).
Proof.
  revert target. induction src as [|[k v] r IH]; intros target Hnd; [done|].
  apply (IH (obj_set k v target)). by apply obj_set_NoDup.
Qed.

Lemma obj_get_spread_NoDup k src target :
  NoDup (map fst src) →
  obj_get k (spread src target)
  = match obj_get k src with
    | Some v => Some v
    | None => obj_get k target
    end.
Proof.
  revert target. induction src as [|[k' v'] r IH]; intros target Hnd; [done|].
  simpl in Hnd. apply NoDup_cons in Hnd as [Hnotin Hnd].
  change (spread ((k', v') :: r) target) with (spread r (obj_set k' v' target)).
  rewrite IH by done. simpl.
  destruct (String.eqb k' k) eqn:E.
  - apply String.eqb_eq in E. subst k'.
    apply obj_get_None in Hnotin. rewrite Hnotin. apply obj_get_set_eq.
  - apply String.eqb_neq in E.
    destruct (obj_get k r); [done|]. apply obj_get_set_ne. congruence.
Qed.

(** ** The request wrapper, further *)

Section WrapperMore.

Variable network : list Event -> string -> value -> FetchResult.

(** X1. When the network fails, the call rejects with the [TypeError] of
    [fetch] itself; one request was handed over and nothing else was
    done. *)
Theorem X1_network_failure this url options w :
  options ≠ VNull →
  (∀ target init, network (events w) target init = NetworkFailure) →
  (makeAuthenticatedRequest network this url options w).1 = Throw TypeError
  ∧ ∃ init,
      (makeAuthenticatedRequest network this url options w).2
      = with_events
          (events w
             ++ [EvFetch (to_string (apiBaseUrl this) +:+ to_string url) init])
          w.
Proof.
  intros Hnull Hnet. answered Hnet. split; [done | eauto].
Qed.

(** X2. Whatever the caller passes, the headers object handed to [fetch]
    has a Content-Type entry and no name twice. *)
Theorem X2_headers_well_formed this url options w :
  options ≠ VNull →
  sends (makeAuthenticatedRequest network this url options) w
    (to_string (apiBaseUrl this) +:+ to_string url)
    (λ init,
       NoDup (map fst (request_headers init))
       ∧ header "Content-Type" init ≠ None).
Proof.
  intros Hnull.
  eapply sends_impl; [by apply makeAuthenticatedRequest_sends|].
  intros init ->. unfold request_headers, header. simpl.
  rewrite obj_get_set_eq. simpl.
  assert (Hbase : NoDup (map fst
            (spread (extra_headers options)
               [("Content-Type", VStr "application/json")])))
    by (apply spread_NoDup, NoDup_singleton).
  assert (Hct : obj_get "Content-Type"
            (spread (extra_headers options)
               [("Content-Type", VStr "application/json")]) ≠ None).
  { destruct (obj_get "Content-Type" (extra_headers options)) eqn:E.
    - destruct (obj_get_spread_present "Content-Type" (extra_headers options)
                  [("Content-Type", VStr "application/json")])
        as (v' & _ & ->); [by rewrite E | done].
    - by rewrite obj_get_spread_absent. }
  destruct (truthy (authToken this)); [|done].
  split; [by apply obj_set_NoDup|].
  by rewrite obj_get_set_ne.
Qed.

(** X3. The options of the caller reach [fetch] as they are: every
    property but [headers] (method, body, credentials, ...) has in the
    request the value it has in the options. *)
Theorem X3_options_pass_through this url options w :
  options ≠ VNull →
  NoDup (map fst (own_props (param_default options (VObj [])))) →
  sends (makeAuthenticatedRequest network this url options) w
    (to_string (apiBaseUrl this) +:+ to_string url)
    (λ init,
       ∀ k, k ≠ "headers" →
            obj_get k (own_props init)
            = obj_get k (own_props (param_default options (VObj [])))).
Proof.
  intros Hnull Hnd.
  eapply sends_impl; [by apply makeAuthenticatedRequest_sends|].
  intros init -> k Hk. simpl.
  rewrite obj_get_set_ne by done.
  rewrite obj_get_spread_NoDup by done.
  by destruct (obj_get k _).
Qed.

(** X4. The extra headers of the caller are sent as given: a header other
    than Content-Type and Authorization has in the request the value it
    has in [options.headers], and is absent when it is absent there; when
    the token is falsy the same holds of Authorization. *)
Theorem X4_extra_headers_pass_through this url options w :
  options ≠ VNull →
  NoDup (map fst (extra_headers options)) →
  sends (makeAuthenticatedRequest network this url options) w
    (to_string (apiBaseUrl this) +:+ to_string url)
    (λ init,
       (∀ k, k ≠ "Content-Type" → k ≠ "Authorization" →
             header k init = obj_get k (extra_headers options))
       ∧ (truthy (authToken this) = false →
          header "Authorization" init
          = obj_get "Authorization" (extra_headers options))).
Proof.
  intros Hnull Hnd.
  assert (Hget : ∀ k, k ≠ "Content-Type" →
            obj_get k (spread (extra_headers options)
                         [("Content-Type", VStr "application/json")])
            = obj_get k (extra_headers options)).
  { intros k Hk. rewrite obj_get_spread_NoDup by done.
    destruct (obj_get k (extra_headers options)); [done|].
    apply obj_get_None. simpl. rewrite list_elem_of_singleton. congruence. }
  eapply sends_impl; [by apply makeAuthenticatedRequest_sends|].
  intros init ->. split.
  - intros k Hct Hauth. rewrite header_of_init.
    destruct (truthy (authToken this)); [|by apply Hget].
    rewrite obj_get_set_ne by done. by apply Hget.
  - intros Hfalsy. rewrite header_of_init, Hfalsy. by apply Hget.
Qed.

End WrapperMore.

(** ** The convenience wrappers *)

Section Wrappers.

Variable network : list Event -> string -> value -> FetchResult.

Lemma json_escape_plain c :
  is_plain_char c = true → json_escape c = String c EmptyString.
Proof.
  unfold is_plain_char, json_escape. intros H.
  apply andb_true_iff in H as [H H92]. apply andb_true_iff in H as [H32 H34].
  apply negb_true_iff in H34, H92. apply Nat.leb_le in H32.
  rewrite H34, H92.
  repeat match goal with
  | |- context [(?n =? ?m)%nat] =>
      destruct (Nat.eqb_spec n m); [lia|]
  end.
  destruct (Nat.ltb_spec (nat_of_ascii c) 32); [lia | done].
Qed.

Lemma json_escape_string_plain s :
  is_plain s = true → json_escape_string s = s.
Proof.
  induction s as [|c r IH]; [done|]. simpl. intros H.
  apply andb_true_iff in H as [Hc Hr].
  by rewrite json_escape_plain, IH.
Qed.

Lemma append_snoc s c r :
  (s +:+ String c EmptyString) +:+ r = s +:+ String c r.
Proof.
  induction s as [|a s IH]; [done|].
  exact (f_equal (String a) IH).
Qed.

(** X5. The three reading wrappers hand [fetch] their fixed path and
    nothing but headers: no method, no body. Without an argument
    [getUserAnalytics] asks for 30 days, with a safe integer for that
    number of days, in decimal. *)
Theorem X5_get_wrappers this w :
  let only_headers (init : value) := ∃ h, init = VObj [("headers", VObj h)] in
  sends (getPricingPlans network this) w
    (to_string (apiBaseUrl this) +:+ "/pricing/plans") only_headers
  ∧ sends (getSubscriptionStatus network this) w
      (to_string (apiBaseUrl this) +:+ "/subscriptions/status") only_headers
  ∧ sends (getUserAnalytics network this VUndefined) w
      (to_string (apiBaseUrl this) +:+ "/users/analytics?days=30") only_headers
  ∧ ∀ n : Z,
      safe_int n = true →
      sends (getUserAnalytics network this (VNum n)) w
        (to_string (apiBaseUrl this) +:+ "/users/analytics?days=" +:+ pretty n)
        only_headers.
Proof.
  intros only_headers.
  assert (Hsend : ∀ url,
            sends (makeAuthenticatedRequest network this url VUndefined) w
              (to_string (apiBaseUrl this) +:+ to_string url) only_headers).
  { intros url.
    eapply sends_impl; [by apply makeAuthenticatedRequest_sends|].
    intros init ->. eexists. reflexivity. }
  split; [apply Hsend|]. split; [apply Hsend|]. split; [apply Hsend|].
  intros n _. apply (Hsend (VStr ("/users/analytics?days=" +:+ pretty n))).
Qed.

(** X6. For a plan name made of plain characters (no quote, backslash
    or control character), [createSubscription] posts the body
    [{"plan":"<name>"}]; called without a plan it posts [{}]. *)
Theorem X6_createSubscription_body this plan w :
  is_plain plan = true →
  sends (createSubscription network this (VStr plan)) w
    (to_string (apiBaseUrl this) +:+ "/subscriptions/create")
    (λ init,
       obj_get "method" (own_props init) = Some (VStr "POST")
       ∧ obj_get "body" (own_props init)
         = Some (VStr ("{" +:+ dquote +:+ "plan" +:+ dquote +:+ ":" +:+ dquote
                       +:+ plan +:+ dquote +:+ "}")))
  ∧ sends (createSubscription network this VUndefined) w
      (to_string (apiBaseUrl this) +:+ "/subscriptions/create")
      (λ init,
         obj_get "method" (own_props init) = Some (VStr "POST")
         ∧ obj_get "body" (own_props init) = Some (VStr "{}")).
Proof.
  intros Hplain. unfold createSubscription. split.
  - eapply sends_impl; [by apply makeAuthenticatedRequest_sends|].
    intros init ->. split; [reflexivity|].
    simpl. unfold JSON_stringify. simpl. unfold json_quote.
    rewrite (json_escape_string_plain plan) by done.
    change (plan +:+ dquote +:+ "}")
      with (plan +:+ String (ascii_of_nat 34) "}").
    by rewrite <- (append_snoc plan (ascii_of_nat 34) "}").
  - eapply sends_impl; [by apply makeAuthenticatedRequest_sends|].
    intros init ->. split; reflexivity.
Qed.

(** X7. For an amount that is a safe integer [purchaseCredits] posts
    the body [{"amount":<amount>}], the number in decimal; an amount
    given as text is posted as a JSON string, [{"amount":"<text>"}]. *)
Theorem X7_purchaseCredits_body this w :
  (∀ n : Z,
     safe_int n = true →
     sends (purchaseCredits network this (VNum n)) w
       (to_string (apiBaseUrl this) +:+ "/credits/purchase")
       (λ init,
          obj_get "method" (own_props init) = Some (VStr "POST")
          ∧ obj_get "body" (own_props init)
            = Some (VStr ("{" +:+ dquote +:+ "amount" +:+ dquote +:+ ":"
                          +:+ pretty n +:+ "}"))))
  ∧ (∀ text,
       is_plain text = true →
       sends (purchaseCredits network this (VStr text)) w
         (to_string (apiBaseUrl this) +:+ "/credits/purchase")
         (λ init,
            obj_get "body" (own_props init)
            = Some (VStr ("{" +:+ dquote +:+ "amount" +:+ dquote +:+ ":"
                          +:+ dquote +:+ text +:+ dquote +:+ "}")))).
Proof.
  unfold purchaseCredits. split.
  - intros n _.
    eapply sends_impl; [by apply makeAuthenticatedRequest_sends|].
    intros init ->. split; reflexivity.
  - intros text Hplain.
    eapply sends_impl; [by apply makeAuthenticatedRequest_sends|].
    intros init ->.
    simpl. unfold JSON_stringify. simpl. unfold json_quote.
    rewrite (json_escape_string_plain text) by done.
    change (text +:+ dquote +:+ "}")
      with (text +:+ String (ascii_of_nat 34) "}").
    by rewrite <- (append_snoc text (ascii_of_nat 34) "}").
Qed.

End Wrappers.

(** ** The purchase handlers, further *)

(** Splits on what the network [net] answers and on what the answer
    holds. *)
Ltac by_answer_of net :=
  rewrite makeAuthenticatedRequest_run by done; cbv zeta;
  match goal with
  | |- context [net ?evs ?target ?init] =>
      set (init0 := init);
      destruct (net evs target init0) as [|r];
      [| destruct (ok r); [destruct (body r) as [v|] |]]
  end.

(** Brings the list of requests of the goal to its plain form. *)
Ltac tidy_requests :=
  simpl; rewrite ?requests_app; simpl; rewrite ?app_nil_r.


Section Purchases.

Variable network : list Event -> string -> value -> FetchResult.

Lemma get_prop_defined v k w :
  v ≠ VNull → v ≠ VUndefined →
  get_prop v k w = (Return (default VUndefined (obj_get k (own_props v))), w).
Proof. by destruct v. Qed.

(** X8. [handleSubscriptionPurchase] never throws, whatever the network
    answers: every failure ends in its catch. It makes exactly one
    request, leaves the service object as it was, and in local storage
    touches nothing but [stripe_session_id]. *)
Theorem X8_subscription_purchase_contained plan w :
  (handleSubscriptionPurchase network plan w).1 = Return tt
  ∧ paymentService (handleSubscriptionPurchase network plan w).2
    = paymentService w
  ∧ (localStorage (handleSubscriptionPurchase network plan w).2
     = localStorage w
     ∨ ∃ text,
         localStorage (handleSubscriptionPurchase network plan w).2
         = <["stripe_session_id" := text]> (localStorage w))
  ∧ sends (handleSubscriptionPurchase network plan) w
      (to_string (apiBaseUrl (paymentService w)) +:+ "/subscriptions/create")
      (λ _, True).
Proof.
  unfold sends, handleSubscriptionPurchase, try_catch, bind, the_paymentService,
    createSubscription.
  by_answer_of network; try (tidy_requests; by eauto 10).
  destruct v; try (tidy_requests; by eauto 10);
    unfold get_prop, ret; cbv beta iota;
    match goal with
    | |- context [truthy ?s] => destruct (truthy s)
    end; tidy_requests; eauto 10.
Qed.

(** X9. When the status is outside 200..299, the user is told: the
    error is written to the console, the alert says that the checkout
    could not be created, no window is opened and nothing is stored. *)
Theorem X9_subscription_purchase_failure plan w r :
  (∀ url init, network (events w) url init = Responded r) →
  ¬ (200 ≤ status r ≤ 299) →
  ∃ init,
    handleSubscriptionPurchase network plan w
    = (Return tt,
       with_events
         (events w
            ++ [EvFetch
                  (to_string (apiBaseUrl (paymentService w))
                   +:+ "/subscriptions/create") init;
                EvConsoleError "Subscription purchase failed:"
                  (Error ("HTTP error! status: " +:+ pretty (status r)));
                EvAlert
                  "Failed to create subscription checkout. Please try again."])
         w).
Proof.
  intros Hnet Hstatus. apply ok_out_of_range in Hstatus. eexists.
  unfold handleSubscriptionPurchase, try_catch, bind, the_paymentService,
    createSubscription.
  answered Hnet. rewrite Hstatus.
  unfold console_error, alert, emit, with_events. simpl.
  by rewrite <- !app_assoc.
Qed.

(** X10. An answer that is an object without a truthy [success] is
    passed over in silence: after the request and the parse nothing is
    opened, stored, logged or shown. *)
Theorem X10_subscription_purchase_refused plan w r v :
  (∀ url init, network (events w) url init = Responded r) →
  200 ≤ status r ≤ 299 →
  body r = JsonBody v →
  v ≠ VNull → v ≠ VUndefined →
  truthy (default VUndefined (obj_get "success" (own_props v))) = false →
  ∃ init,
    handleSubscriptionPurchase network plan w
    = (Return tt,
       with_events
         (events w
            ++ [EvFetch
                  (to_string (apiBaseUrl (paymentService w))
                   +:+ "/subscriptions/create") init;
                EvResponseJson r])
         w).
Proof.
  intros Hnet Hstatus Hbody Hnull Hundef Hsuccess.
  apply ok_in_range in Hstatus. eexists.
  unfold handleSubscriptionPurchase, try_catch, bind, the_paymentService,
    createSubscription.
  answered Hnet. rewrite Hstatus, Hbody.
  rewrite get_prop_defined by done. by rewrite Hsuccess.
Qed.


(** X12. [handleCreditPurchase] never throws either; it makes exactly
    one request, leaves the service object as it was, and in local
    storage touches nothing but [stripe_session_id]. *)
Theorem X12_credit_purchase_contained amount w :
  (handleCreditPurchase network amount w).1 = Return tt
  ∧ paymentService (handleCreditPurchase network amount w).2 = paymentService w
  ∧ (localStorage (handleCreditPurchase network amount w).2 = localStorage w
     ∨ ∃ text,
         localStorage (handleCreditPurchase network amount w).2
         = <["stripe_session_id" := text]> (localStorage w))
  ∧ sends (handleCreditPurchase network amount) w
      (to_string (apiBaseUrl (paymentService w)) +:+ "/credits/purchase")
      (λ _, True).
Proof.
  unfold sends, handleCreditPurchase, try_catch, bind, the_paymentService,
    purchaseCredits.
  by_answer_of network; try (tidy_requests; by eauto 10).
  destruct v; try (tidy_requests; by eauto 10);
    unfold get_prop, ret; cbv beta iota;
    match goal with
    | |- context [truthy ?s] => destruct (truthy s)
    end; tidy_requests; eauto 10.
Qed.

(** X13. When the status is outside 200..299, the error is written to
    the console and the alert says that the credit purchase could not be
    created; no window is opened and nothing is stored. *)
Theorem X13_credit_purchase_failure amount w r :
  (∀ url init, network (events w) url init = Responded r) →
  ¬ (200 ≤ status r ≤ 299) →
  ∃ init,
    handleCreditPurchase network amount w
    = (Return tt,
       with_events
         (events w
            ++ [EvFetch
                  (to_string (apiBaseUrl (paymentService w))
                   +:+ "/credits/purchase") init;
                EvConsoleError "Credit purchase failed:"
                  (Error ("HTTP error! status: " +:+ pretty (status r)));
                EvAlert
                  "Failed to create credit purchase checkout. Please try again."])
         w).
Proof.
  intros Hnet Hstatus. apply ok_out_of_range in Hstatus. eexists.
  unfold handleCreditPurchase, try_catch, bind, the_paymentService,
    purchaseCredits.
  answered Hnet. rewrite Hstatus.
  unfold console_error, alert, emit, with_events. simpl.
  by rewrite <- !app_assoc.
Qed.


End Purchases.

(** ** The success page and the status display, further *)

Section SuccessPage.

Variable network : list Event -> string -> value -> FetchResult.
Variable location_search : list (string * string).

(** X15. [handlePaymentSuccess] never throws; it leaves the service
    object as it was, makes at most one request, and the one thing it
    can do to local storage is to remove [stripe_session_id]. *)
Theorem X15_payment_success_contained w :
  (handlePaymentSuccess network location_search w).1 = Return tt
  ∧ paymentService (handlePaymentSuccess network location_search w).2
    = paymentService w
  ∧ (localStorage (handlePaymentSuccess network location_search w).2
     = localStorage w
     ∨ localStorage (handlePaymentSuccess network location_search w).2
       = delete "stripe_session_id" (localStorage w))
  ∧ (requests (events (handlePaymentSuccess network location_search w).2)
     = requests (events w)
     ∨ sends (handlePaymentSuccess network location_search) w
         (to_string (apiBaseUrl (paymentService w)) +:+ "/subscriptions/status")
         (λ _, True)).
Proof.
  unfold sends, handlePaymentSuccess.
  destruct (truthy (URLSearchParams_get location_search "session_id"));
    [|by auto].
  unfold try_catch, bind, the_paymentService, getSubscriptionStatus.
  by_answer_of network; try (tidy_requests; by eauto 10).
  unfold console_log, emit. cbv beta iota.
  match goal with
  | |- context [updateUserInterface v ?w1] =>
      destruct (updateUserInterface_run v w1) as (res & evs & -> & Hreq & _)
  end.
  destruct res; tidy_requests; rewrite ?Hreq; tidy_requests; eauto 10.
Qed.

(** X16. With a [session_id] in the URL, every way the refresh can go
    wrong leaves local storage alone and ends in one line on the error
    console: a network failure, a success whose body is not JSON, and a
    success whose body is the JSON value null. *)
Theorem X16_payment_success_failures w s :
  URLSearchParams_get location_search "session_id" = VStr s →
  s ≠ "" →
  let target :=
    to_string (apiBaseUrl (paymentService w)) +:+ "/subscriptions/status" in
  ((∀ url init, network (events w) url init = NetworkFailure) →
   ∃ init,
     handlePaymentSuccess network location_search w
     = (Return tt,
        with_events
          (events w
             ++ [EvFetch target init;
                 EvConsoleError "Failed to get updated user status:" TypeError])
          w))
  ∧ (∀ r,
       (∀ url init, network (events w) url init = Responded r) →
       200 ≤ status r ≤ 299 →
       body r = NotJson →
       ∃ init,
         handlePaymentSuccess network location_search w
         = (Return tt,
            with_events
              (events w
                 ++ [EvFetch target init; EvResponseJson r;
                     EvConsoleError "Failed to get updated user status:"
                       SyntaxError])
              w))
  ∧ (∀ r,
       (∀ url init, network (events w) url init = Responded r) →
       200 ≤ status r ≤ 299 →
       body r = JsonBody VNull →
       ∃ init,
         handlePaymentSuccess network location_search w
         = (Return tt,
            with_events
              (events w
                 ++ [EvFetch target init; EvResponseJson r;
                     EvConsoleLog [VStr "Updated user status:"; VNull];
                     EvConsoleError "Failed to get updated user status:"
                       TypeError])
              w)).
Proof.
  intros Hs Hne target.
  assert (Htruthy : truthy (VStr s) = true).
  { simpl. destruct (String.eqb s "") eqn:E; [|done].
    by apply String.eqb_eq in E. }
  unfold handlePaymentSuccess. rewrite Hs, Htruthy.
  unfold try_catch, bind, the_paymentService, getSubscriptionStatus.
  split; [|split].
  - intros Hnet. eexists. answered Hnet.
    unfold console_error, emit, with_events. simpl.
    by rewrite <- !app_assoc.
  - intros r Hnet Hstatus Hbody. apply ok_in_range in Hstatus. eexists.
    answered Hnet. rewrite Hstatus, Hbody.
    unfold console_error, emit, with_events. simpl.
    by rewrite <- !app_assoc.
  - intros r Hnet Hstatus Hbody. apply ok_in_range in Hstatus. eexists.
    answered Hnet. rewrite Hstatus, Hbody.
    unfold console_error, console_log, emit, with_events. simpl.
    by rewrite <- !app_assoc.
Qed.

(** X17. [updateUserInterface], given a status object with a truthy
    [success] and a stringable [tier], writes the tier and then the
    credits: the number -1 is written [Unlimited], any other safe integer
    in decimal; credits that arrive as text are written as they are, so
    that the text [-1] is not taken for unlimited. *)
Theorem X17_credits_display o w :
  truthy (default VUndefined (obj_get "success" o)) = true →
  stringable (default VUndefined (obj_get "tier" o)) = true →
  let tier_line :=
    EvConsoleLog
      [VStr ("User tier: " +:+ to_string (default VUndefined (obj_get "tier" o)))]
  in
  (∀ n : Z,
     obj_get "credits" o = Some (VNum n) →
     safe_int n = true →
     updateUserInterface (VObj o) w
     = (Return tt,
        with_events
          (events w
             ++ [tier_line;
                 EvConsoleLog
                   [VStr ("Available credits: " +:+
                          (if bool_decide (n = -1) then "Unlimited"
                           else pretty n))]])
          w))
  ∧ (∀ text,
       obj_get "credits" o = Some (VStr text) →
       updateUserInterface (VObj o) w
       = (Return tt,
          with_events
            (events w
               ++ [tier_line; EvConsoleLog [VStr ("Available credits: " +:+ text)]])
            w)).
Proof.
  intros Hsuccess _ tier_line.
  assert (Hrun : ∀ credits,
            obj_get "credits" o = Some credits →
            updateUserInterface (VObj o) w
            = (Return tt,
               with_events
                 (events w
                    ++ [tier_line;
                        EvConsoleLog
                          [VStr ("Available credits: " +:+
                                 (if is_minus_one credits then "Unlimited"
                                  else to_string credits))]])
                 w)).
  { intros credits Hcredits.
    unfold updateUserInterface, bind, get_prop, ret. simpl.
    rewrite Hsuccess, Hcredits.
    unfold console_log, emit, with_events. simpl.
    by rewrite <- !app_assoc. }
  split.
  - intros n Hn _. rewrite (Hrun _ Hn). simpl.
    destruct (Z.eqb_spec n (-1)) as [->|Hne]; [done|].
    by rewrite bool_decide_eq_false_2.
  - intros text Htext. by rewrite (Hrun _ Htext).
Qed.


End SuccessPage.

(** ** Reading back a printed number *)

Lemma digit_value_pretty d :
  (d < 10)%N → digit_value 10 (pretty_N_char d) = Some (Z.of_N d).
Proof.
  intros Hd.
  assert (d = 0 ∨ d = 1 ∨ d = 2 ∨ d = 3 ∨ d = 4 ∨ d = 5 ∨ d = 6 ∨ d = 7
          ∨ d = 8 ∨ d = 9)%N as Hcases by lia.
  repeat destruct Hcases as [->|Hcases]; try subst d; reflexivity.
Qed.

Lemma all_digits_cons c r :
  all_digits (String c r) = true
  ↔ (48 ≤ nat_of_ascii c ≤ 57)%nat ∧ all_digits r = true.
Proof.
  change (all_digits (String c r))
    with (((48 <=? nat_of_ascii c) && (nat_of_ascii c <=? 57))%nat
          && all_digits r).
  rewrite !andb_true_iff, !Nat.leb_le. tauto.
Qed.

Lemma pretty_N_char_digit d : (48 ≤ nat_of_ascii (pretty_N_char d) ≤ 57)%nat.
Proof. unfold pretty_N_char. repeat case_match; vm_compute; lia. Qed.

Lemma all_digits_pretty_go x s :
  all_digits s = true → all_digits (pretty_N_go x s) = true.
Proof.
  revert s. induction (N.lt_wf_0 x) as [x _ IH]; intros s Hs.
  destruct (decide (x = 0)%N) as [->|Hx]; [by rewrite pretty_N_go_0|].
  rewrite pretty_N_go_step by lia.
  apply IH; [apply N.div_lt; lia|].
  apply all_digits_cons. split; [apply pretty_N_char_digit | done].
Qed.

Lemma leading_digits_pretty_go x :
  (0 < x)%N →
  ∃ k, ∀ acc s,
    leading_digits 10 acc (pretty_N_go x s)
    = leading_digits 10 (Some (default 0 acc * k + Z.of_N x)) s.
Proof.
  induction (N.lt_wf_0 x) as [x _ IH]; intros Hx.
  assert (Hdigit : (x `mod` 10 < 10)%N) by (apply N.mod_lt; lia).
  assert (Hsplit : Z.of_N x = 10 * Z.of_N (x `div` 10) + Z.of_N (x `mod` 10)).
  { rewrite <- N2Z.inj_mul with (n := 10%N), <- N2Z.inj_add.
    f_equal. apply N.div_mod. lia. }
  destruct (decide (x `div` 10 = 0)%N) as [Hzero|Hpos].
  - exists 10. intros acc s.
    rewrite pretty_N_go_step, Hzero, pretty_N_go_0 by done.
    simpl. rewrite digit_value_pretty by done.
    rewrite Hzero in Hsplit. do 2 f_equal. lia.
  - destruct (IH (x `div` 10)%N) as [k Hk]; [apply N.div_lt; lia | lia |].
    exists (k * 10). intros acc s.
    rewrite pretty_N_go_step, Hk by done.
    simpl. rewrite digit_value_pretty by done.
    do 2 f_equal. simpl. lia.
Qed.

Lemma pretty_N_go_nonempty x : (0 < x)%N → pretty_N_go x "" ≠ "".
Proof.
  intros Hx Hempty.
  destruct (leading_digits_pretty_go x Hx) as [k Hk].
  specialize (Hk None ""). rewrite Hempty in Hk. done.
Qed.

Lemma parseInt_digits s :
  all_digits s = true → parseInt s = leading_digits 10 None s.
Proof.
  intros Hs. unfold parseInt.
  destruct s as [|c r]; [done|].
  apply all_digits_cons in Hs as [Hc Hr].
  assert (Hspace : is_js_space c = false).
  { unfold is_js_space. apply orb_false_iff. split.
    - apply Nat.eqb_neq. lia.
    - apply andb_false_iff. right. apply Nat.leb_gt. lia. }
  cbn [skip_js_space]. rewrite Hspace.
  destruct (Nat.eqb_spec (nat_of_ascii c) 45); [lia|].
  destruct (Nat.eqb_spec (nat_of_ascii c) 43); [lia|].
  assert (Hradix :
    (match r with
     | String x r' =>
         if (nat_of_ascii c =? 48)%nat && is_x x then (16, r')
         else (10, String c r)
     | EmptyString => (10, String c r)
     end) = (10, String c r)).
  { destruct r as [|x r']; [done|].
    apply all_digits_cons in Hr as [Hx _].
    assert (is_x x = false) as ->.
    { unfold is_x. apply orb_false_iff. split; apply Nat.eqb_neq; lia. }
    by rewrite andb_false_r. }
  rewrite Hradix.
  destruct (leading_digits 10 None (String c r)) as [z|]; [|done].
  simpl. f_equal. by destruct z.
Qed.

Lemma parseInt_pretty_pos p : parseInt (pretty (Z.pos p)) = Some (Z.pos p).
Proof.
  change (pretty (Z.pos p)) with (pretty_N_go (N.pos p) "").
  rewrite parseInt_digits by (by apply all_digits_pretty_go).
  destruct (leading_digits_pretty_go (N.pos p)) as [k Hk]; [lia|].
  by rewrite Hk.
Qed.

(** The key of a package, printed from a number, reads back as it. *)
Lemma parseInt_pretty (n : Z) : 0 ≤ n → parseInt (pretty n) = Some n.
Proof.
  intros Hn. destruct n as [|p|p]; [done | apply parseInt_pretty_pos | lia].
Qed.

(** ** The pricing display *)

Lemma with_events_same w : with_events (events w) w = w.
Proof. by destruct w. Qed.

Lemma console_only_ret {A : Type} (a : A) : console_only (ret a).
Proof.
  intros w. exists (Return a), []. rewrite app_nil_r, with_events_same.
  by split_and!.
Qed.

Lemma console_only_throw {A : Type} (e : exn) : console_only (@throw A e).
Proof.
  intros w. exists (Throw e), []. rewrite app_nil_r, with_events_same.
  by split_and!.
Qed.

Lemma console_only_log args : console_only (console_log args).
Proof.
  intros w. exists (Return tt), [EvConsoleLog args]. split_and!; [done..|].
  apply Forall_singleton. by exists args.
Qed.

Lemma console_only_bind {A B : Type} (m : M A) (k : A → M B) :
  console_only m → (∀ a, console_only (k a)) → console_only (bind m k).
Proof.
  intros Hm Hk w. unfold bind.
  destruct (Hm w) as (res & evs & -> & Hreq & Hlog).
  destruct res as [a|e]; [|by exists (Throw e), evs].
  destruct (Hk a (with_events (events w ++ evs) w))
    as (res' & evs' & -> & Hreq' & Hlog').
  exists res', (evs ++ evs'). split_and!.
  - unfold with_events. simpl. by rewrite app_assoc.
  - by rewrite requests_app, Hreq, Hreq'.
  - by apply Forall_app.
Qed.

Lemma console_only_get_prop v k : console_only (get_prop v k).
Proof. destruct v; first [apply console_only_throw | apply console_only_ret]. Qed.

Lemma console_only_call_join v sep : console_only (call_join v sep).
Proof. destruct v; first [apply console_only_throw | apply console_only_ret]. Qed.

Lemma console_only_entries v : console_only (Object_entries v).
Proof. destruct v; first [apply console_only_throw | apply console_only_ret]. Qed.

Lemma console_only_forEach {A : Type} (l : list A) (f : A → M unit) :
  (∀ x, console_only (f x)) → console_only (forEach l f).
Proof.
  intros Hf. induction l as [|x l IH]; [apply console_only_ret|].
  simpl. apply console_only_bind; [apply Hf | by intros _].
Qed.

(** Works through a computation made of property reads, joins, loops
    and console lines. *)
Ltac console :=
  repeat first
    [ apply console_only_ret
    | apply console_only_log
    | apply console_only_get_prop
    | apply console_only_call_join
    | apply console_only_entries
    | apply console_only_bind; [|intros ?]
    | apply console_only_forEach; intros ?
    | match goal with
      | |- console_only (if ?b then _ else _) => destruct b
      end ].

Section DisplayProperties.

Variable network : list Event -> string -> value -> FetchResult.

(** X19. When the status is outside 200..299 the pricing display shows
    nothing: after the request the one thing done is a line on the error
    console. *)
Theorem X19_pricing_failure w r :
  (∀ url init, network (events w) url init = Responded r) →
  ¬ (200 ≤ status r ≤ 299) →
  ∃ init,
    displayPricingPlans network w
    = (Return tt,
       with_events
         (events w
            ++ [EvFetch
                  (to_string (apiBaseUrl (paymentService w)) +:+ "/pricing/plans")
                  init;
                EvConsoleError "Failed to load pricing plans:"
                  (Error ("HTTP error! status: " +:+ pretty (status r)))])
         w).
Proof.
  intros Hnet Hstatus. apply ok_out_of_range in Hstatus. eexists.
  unfold displayPricingPlans, try_catch, bind, the_paymentService,
    getPricingPlans.
  answered Hnet. rewrite Hstatus.
  unfold console_error, emit, with_events. simpl.
  by rewrite <- !app_assoc.
Qed.

(** X20. [displayPricingPlans] never throws, whatever the network
    answers and whatever shape the answer has; it makes exactly one
    request, and leaves the service object and local storage as they
    were. *)
Theorem X20_pricing_contained w :
  (displayPricingPlans network w).1 = Return tt
  ∧ paymentService (displayPricingPlans network w).2 = paymentService w
  ∧ localStorage (displayPricingPlans network w).2 = localStorage w
  ∧ sends (displayPricingPlans network) w
      (to_string (apiBaseUrl (paymentService w)) +:+ "/pricing/plans")
      (λ _, True).
Proof.
  unfold sends, displayPricingPlans, try_catch.
  change (bind the_paymentService ?k w) with (k (paymentService w) w).
  cbv beta.
  match goal with
  | |- context [bind (getPricingPlans network ?this) ?k w] =>
      change (bind (getPricingPlans network this) k w)
        with (match getPricingPlans network this w with
              | (Return a, w') => k a w'
              | (Throw e, w') => (Throw e, w')
              end);
      assert (Hk : ∀ response, console_only (k response))
        by (intros response; console)
  end.
  unfold getPricingPlans.
  by_answer_of network; try (tidy_requests; by eauto 10).
  match goal with
  | |- context [bind (get_prop v "success") ?k ?w1] =>
      destruct (Hk v w1) as (res & evs & Heq & Hreq & _)
  end.
  cbv beta in Heq. rewrite Heq.
  destruct res as [[]|e]; tidy_requests; rewrite ?Hreq; tidy_requests;
    eauto 10.
Qed.

(** X21. An answer that is an object without a truthy [success] shows
    nothing, and no error either. *)
Theorem X21_pricing_refused w r v :
  (∀ url init, network (events w) url init = Responded r) →
  200 ≤ status r ≤ 299 →
  body r = JsonBody v →
  v ≠ VNull → v ≠ VUndefined →
  truthy (default VUndefined (obj_get "success" (own_props v))) = false →
  ∃ init,
    displayPricingPlans network w
    = (Return tt,
       with_events
         (events w
            ++ [EvFetch
                  (to_string (apiBaseUrl (paymentService w)) +:+ "/pricing/plans")
                  init;
                EvResponseJson r])
         w).
Proof.
  intros Hnet Hstatus Hbody Hnull Hundef Hsuccess.
  apply ok_in_range in Hstatus. eexists.
  unfold displayPricingPlans, try_catch, bind, the_paymentService,
    getPricingPlans.
  answered Hnet. rewrite Hstatus, Hbody.
  rewrite get_prop_defined by done. by rewrite Hsuccess.
Qed.

Lemma bind_run {A B : Type} (m : M A) (k : A → M B) w :
  bind m k w
  = match m w with
    | (Return a, w') => k a w'
    | (Throw e, w') => (Throw e, w')
    end.
Proof. done. Qed.

Lemma logged_app evs evs' : logged (evs ++ evs') = logged evs ++ logged evs'.
Proof.
  induction evs as [|e evs IH]; [done|].
  destruct e; simpl; by rewrite IH.
Qed.

Lemma logged_map lines : logged (map EvConsoleLog lines) = lines.
Proof. induction lines as [|l lines IH]; [done|]. simpl. by rewrite IH. Qed.

Lemma forEach_packages (f : string * value → M unit) pkgs w :
  Forall (λ pkg : Z * Z * Z, 0 ≤ pkg.1.1) pkgs →
  (∀ pkg w0,
     0 ≤ pkg.1.1 →
     f (package_entry pkg) w0
     = (Return tt,
        with_events (events w0 ++ map EvConsoleLog (package_lines pkg)) w0)) →
  forEach (map package_entry pkgs) f w
  = (Return tt,
     with_events
       (events w ++ map EvConsoleLog (flat_map package_lines pkgs)) w).
Proof.
  intros Hpkgs Hf. revert w.
  induction Hpkgs as [|pkg pkgs Hn _ IH]; intros w.
  - simpl. by rewrite app_nil_r, with_events_same.
  - change (map package_entry (pkg :: pkgs))
      with (package_entry pkg :: map package_entry pkgs).
    cbn [forEach]. rewrite bind_run, Hf by done. rewrite IH.
    unfold with_events. cbn [events paymentService localStorage flat_map].
    by rewrite map_app, app_assoc.
Qed.

(** X22. For an answer that lists credit packages under their amounts,
    each with a bonus and a price, all of them and the totals safe
    integers, the display writes for every package, in the order in which
    the object enumerates them, its line, then [Total:] with the sum of
    amount and bonus, then an empty line. *)
Theorem X22_pricing_totals w r pkgs :
  (∀ url init, network (events w) url init = Responded r) →
  200 ≤ status r ≤ 299 →
  body r = JsonBody (packages_only pkgs) →
  Forall safe_package pkgs →
  (displayPricingPlans network w).1 = Return tt
  ∧ logged (events (displayPricingPlans network w).2)
    = logged (events w)
        ++ [[VStr "Subscription Plans:"]; [VStr "Credit Packages:"]]
        ++ flat_map package_lines pkgs.
Proof.
  intros Hnet Hstatus Hbody Hsafe. apply ok_in_range in Hstatus.
  assert (Hpkgs : Forall (λ pkg : Z * Z * Z, 0 ≤ pkg.1.1) pkgs).
  { eapply Forall_impl; [exact Hsafe|]. by intros pkg [Hpos _]. }
  assert (Hrun : ∃ init,
    displayPricingPlans network w
    = (Return tt,
       with_events
         ((events w
             ++ [EvFetch
                   (to_string (apiBaseUrl (paymentService w)) +:+ "/pricing/plans")
                   init;
                 EvResponseJson r;
                 EvConsoleLog [VStr "Subscription Plans:"];
                 EvConsoleLog [VStr "Credit Packages:"]])
            ++ map EvConsoleLog (flat_map package_lines pkgs))
         w)).
  { eexists.
    unfold displayPricingPlans, try_catch, the_paymentService, getPricingPlans.
    rewrite !bind_run.
    answered Hnet. rewrite Hstatus, Hbody.
    unfold packages_only, bind, get_prop, ret, console_log, emit,
      Object_entries.
    cbn -[pretty parseInt with_events].
    erewrite forEach_packages; [|done|].
    - unfold with_events. simpl. by rewrite <- !app_assoc.
    - intros [[n b] p] w0 Hn. simpl in Hn.
      unfold package_entry. cbn -[pretty parseInt with_events].
      rewrite parseInt_pretty by done.
      unfold with_events, package_lines. cbn -[pretty].
      rewrite <- !app_assoc. cbn -[pretty]. by rewrite (Z.add_comm b n). }
  destruct Hrun as [init ->]. split; [done|].
  cbn [snd events with_events].
  rewrite !logged_app, logged_map. simpl. by rewrite <- app_assoc.
Qed.

End DisplayProperties.

(** ** The startup script, further *)

Section StartupMore.

Import StartSh.

Variable matches : string -> list string.

Lemma use_default_nonempty parameter word :
  word ≠ "" → use_default parameter word ≠ "".
Proof.
  intros Hword. unfold use_default.
  destruct parameter as [s|]; [|done].
  destruct (String.eqb s "") eqn:E; [done|].
  by apply String.eqb_neq in E.
Qed.

Lemma use_default_set s word : s ≠ "" → use_default (Some s) word = s.
Proof.
  intros Hs. unfold use_default.
  destruct (String.eqb s "") eqn:E; [|done].
  by apply String.eqb_eq in E.
Qed.

(** X23. Whatever the environment, the script hands the server a [PORT]
    that is not empty; a [PORT] that came in not empty is handed on as it
    is, whatever it holds. *)
Theorem X23_port_exported (env : gmap string string) :
  ∃ port,
    environ (start matches env) !! "PORT" = Some port
    ∧ port ≠ ""
    ∧ ∀ given, env !! "PORT" = Some given → given ≠ "" → port = given.
Proof.
  exists (use_default (env !! "PORT") "8000"). split_and!.
  - apply lookup_insert_eq.
  - by apply use_default_nonempty.
  - intros given -> Hgiven. by apply use_default_set.
Qed.

(** X24. Starting again from the environment the script exported changes
    nothing: the same command line, the same environment. *)
Theorem X24_start_idempotent (env : gmap string string) :
  start matches (environ (start matches env)) = start matches env.
Proof.
  unfold start. cbn [environ].
  rewrite lookup_insert_eq.
  rewrite use_default_set by (by apply use_default_nonempty).
  by rewrite insert_insert_eq.
Qed.

Lemma fields_all_ifs s : all_ifs s = true → fields None s = [].
Proof.
  induction s as [|c r IH]; [done|].
  cbn [all_ifs fields]. intros H. apply andb_true_iff in H as [Hc Hr].
  rewrite Hc. by apply IH.
Qed.

(** X25. A [PORT] made of blanks only is not empty, so it is kept and
    not replaced by 8000; unquoted, it then expands to nothing, and the
    command line has no port after [--port]. *)
Theorem X25_blank_port (env : gmap string string) port :
  env !! "PORT" = Some port →
  port ≠ "" →
  all_ifs port = true →
  argv (start matches env)
  = ["uvicorn"; "main:app"; "--host"; "0.0.0.0"; "--port"; "--workers"; "1"]
  ∧ environ (start matches env) !! "PORT" = Some port.
Proof.
  intros Hport Hne Hblank. unfold start. rewrite Hport.
  rewrite use_default_set by done. cbn [argv environ].
  rewrite lookup_insert_eq. split; [|done].
  unfold unquoted. rewrite lookup_insert_eq. simpl.
  by rewrite fields_all_ifs.
Qed.

Lemma fields_two_words cur a b :
  has_ifs a = false →
  String.eqb b "" = false → has_ifs b = false →
  fields (Some cur) (a +:+ String " " b) = [cur +:+ a; b].
Proof.
  revert cur. induction a as [|c r IH]; intros cur Ha Hb Hifs.
  - change ("" +:+ String " " b) with (String " " b).
    change (fields (Some cur) (String " " b)) with ([cur] ++ fields None b).
    by rewrite fields_single, append_empty.
  - change (has_ifs (String c r)) with (is_ifs c || has_ifs r) in Ha.
    apply orb_false_iff in Ha as [Hc Hr].
    change (String c r +:+ String " " b) with (String c (r +:+ String " " b)).
    cbn [fields]. rewrite Hc. cbn [default from_option id].
    rewrite IH by done. by rewrite append_cons.
Qed.

(** X26. [$PORT] is not quoted: a value of two words separated by a
    space reaches the server as two arguments. *)
Theorem X26_port_split (env : gmap string string) a b :
  env !! "PORT" = Some (a +:+ String " " b) →
  single_word a = true →
  single_word b = true →
  argv (start matches env)
  = ["uvicorn"; "main:app"; "--host"; "0.0.0.0"; "--port"; a; b;
     "--workers"; "1"].
Proof.
  intros Hport Ha Hb. unfold single_word in Ha, Hb.
  apply andb_true_iff in Ha as [Ha Haglob].
  apply andb_true_iff in Ha as [Haempty Haifs].
  apply andb_true_iff in Hb as [Hb Hbglob].
  apply andb_true_iff in Hb as [Hbempty Hbifs].
  apply negb_true_iff in Haglob, Haifs, Haempty, Hbglob, Hbifs, Hbempty.
  assert (Hne : a +:+ String " " b ≠ "").
  { destruct a; [done|]. apply String.eqb_neq. done. }
  unfold start. rewrite Hport, use_default_set by done. cbn [argv].
  unfold unquoted. rewrite lookup_insert_eq. cbn [default from_option id].
  destruct a as [|c r]; [done|].
  change (has_ifs (String c r)) with (is_ifs c || has_ifs r) in Haifs.
  apply orb_false_iff in Haifs as [Hc Hr].
  change (String c r +:+ String " " b) with (String c (r +:+ String " " b)).
  cbn [fields]. rewrite Hc. cbn [default from_option id].
  rewrite fields_two_words by done.
  change (("" +:+ String c "") +:+ r) with (String c r).
  cbn [flat_map]. unfold glob. by rewrite Haglob, Hbglob.
Qed.

End StartupMore.

(** ** The further properties, on concrete runs *)

Lemma X1_network_failure_witness :
  basic_auth ≠ VNull
  ∧ (makeAuthenticatedRequest offline (constructor VUndefined VUndefined)
       (VStr "/pricing/plans") basic_auth fresh).1
    = Throw TypeError.
Proof.
  split; [done|].
  apply (X1_network_failure offline (constructor VUndefined VUndefined)
           (VStr "/pricing/plans") basic_auth fresh); done.
Defined.

Lemma X2_headers_well_formed_witness :
  plain_text ≠ VNull
  ∧ sends (makeAuthenticatedRequest (answers status_ok)
             (constructor VUndefined (VStr "tok_live_42")) (VStr "/notes")
             plain_text)
      fresh "http://localhost:8000/notes"
      (λ init,
         NoDup (map fst (request_headers init))
         ∧ header "Content-Type" init ≠ None).
Proof.
  split; [done|].
  apply (X2_headers_well_formed (answers status_ok)
           (constructor VUndefined (VStr "tok_live_42")) (VStr "/notes")
           plain_text fresh).
  done.
Defined.

Lemma X3_options_pass_through_witness :
  plain_text ≠ VNull
  ∧ NoDup (map fst (own_props (param_default plain_text (VObj []))))
  ∧ sends (makeAuthenticatedRequest (answers status_ok)
             (constructor VUndefined VUndefined) (VStr "/notes") plain_text)
      fresh "http://localhost:8000/notes"
      (λ init,
         obj_get "method" (own_props init) = Some (VStr "POST")
         ∧ obj_get "body" (own_props init) = Some (VStr "hello")
         ∧ obj_get "mode" (own_props init) = None).
Proof.
  assert (Hkeys : NoDup (map fst (own_props (param_default plain_text (VObj [])))))
    by (apply (bool_decide_eq_true_1 _); reflexivity).
  split; [done|]. split; [exact Hkeys|].
  apply (sends_impl _ _ _ _ _
           (X3_options_pass_through (answers status_ok)
              (constructor VUndefined VUndefined) (VStr "/notes") plain_text
              fresh ltac:(done) Hkeys)).
  intros init Hinit. rewrite !Hinit by done. done.
Defined.

Lemma X4_extra_headers_pass_through_witness :
  basic_auth ≠ VNull
  ∧ NoDup (map fst (extra_headers basic_auth))
  ∧ truthy (authToken (constructor VUndefined VUndefined)) = false
  ∧ sends (makeAuthenticatedRequest (answers status_ok)
             (constructor VUndefined VUndefined) (VStr "/notes") basic_auth)
      fresh "http://localhost:8000/notes"
      (λ init,
         header "Accept" init = None
         ∧ header "Authorization" init = Some (VStr "Basic dXNlcjpwdw==")).
Proof.
  assert (Hkeys : NoDup (map fst (extra_headers basic_auth)))
    by (apply (bool_decide_eq_true_1 _); reflexivity).
  split; [done|]. split; [exact Hkeys|]. split; [reflexivity|].
  apply (sends_impl _ _ _ _ _
           (X4_extra_headers_pass_through (answers status_ok)
              (constructor VUndefined VUndefined) (VStr "/notes") basic_auth
              fresh ltac:(done) Hkeys)).
  intros init [Hother Hauth]. split.
  - by rewrite Hother.
  - by rewrite Hauth.
Defined.

Lemma X5_get_wrappers_witness :
  safe_int 7 = true
  ∧ sends (getUserAnalytics (answers status_ok)
             (constructor VUndefined VUndefined) (VNum 7))
      fresh "http://localhost:8000/users/analytics?days=7"
      (λ init, ∃ h, init = VObj [("headers", VObj h)]).
Proof.
  split; [reflexivity|].
  destruct (X5_get_wrappers (answers status_ok)
              (constructor VUndefined VUndefined) fresh)
    as (_ & _ & _ & Hdays).
  apply (Hdays 7). reflexivity.
Defined.

Lemma X6_createSubscription_body_witness :
  is_plain "team plan" = true
  ∧ sends (createSubscription (answers checkout_response)
             (constructor VUndefined VUndefined) (VStr "team plan"))
      fresh "http://localhost:8000/subscriptions/create"
      (λ init,
         obj_get "method" (own_props init) = Some (VStr "POST")
         ∧ obj_get "body" (own_props init)
           = Some (VStr ("{" +:+ dquote +:+ "plan" +:+ dquote +:+ ":" +:+ dquote
                         +:+ "team plan" +:+ dquote +:+ "}"))).
Proof.
  split; [reflexivity|].
  apply (X6_createSubscription_body (answers checkout_response)
           (constructor VUndefined VUndefined) "team plan" fresh).
  reflexivity.
Defined.

Lemma X7_purchaseCredits_body_witness :
  safe_int 250 = true
  ∧ is_plain "100" = true
  ∧ sends (purchaseCredits (answers credits_response)
             (constructor VUndefined VUndefined) (VNum 250))
      fresh "http://localhost:8000/credits/purchase"
      (λ init,
         obj_get "method" (own_props init) = Some (VStr "POST")
         ∧ obj_get "body" (own_props init)
           = Some (VStr ("{" +:+ dquote +:+ "amount" +:+ dquote +:+ ":250}")))
  ∧ sends (purchaseCredits (answers credits_response)
             (constructor VUndefined VUndefined) (VStr "100"))
      fresh "http://localhost:8000/credits/purchase"
      (λ init,
         obj_get "body" (own_props init)
         = Some (VStr ("{" +:+ dquote +:+ "amount" +:+ dquote +:+ ":"
                       +:+ dquote +:+ "100" +:+ dquote +:+ "}"))).
Proof.
  split; [reflexivity|]. split; [reflexivity|].
  destruct (X7_purchaseCredits_body (answers credits_response)
              (constructor VUndefined VUndefined) fresh) as [Hnumber Htext].
  split.
  - apply (Hnumber 250). reflexivity.
  - apply (Htext "100"). reflexivity.
Defined.

Lemma X9_subscription_purchase_failure_witness :
  ¬ (200 ≤ status server_error ≤ 299)
  ∧ ∃ init,
      handleSubscriptionPurchase (answers server_error) (VStr "pro") fresh
      = (Return tt,
         with_events
           [EvFetch "http://localhost:8000/subscriptions/create" init;
            EvConsoleError "Subscription purchase failed:"
              (Error "HTTP error! status: 500");
            EvAlert "Failed to create subscription checkout. Please try again."]
           fresh).
Proof.
  split; [simpl; lia|].
  apply (X9_subscription_purchase_failure (answers server_error) (VStr "pro")
           fresh server_error); [reflexivity | simpl; lia].
Defined.

Lemma X10_subscription_purchase_refused_witness :
  truthy (default VUndefined (obj_get "success" (own_props refused))) = false
  ∧ ∃ init,
      handleSubscriptionPurchase (answers refused_response) (VStr "pro") fresh
      = (Return tt,
         with_events
           [EvFetch "http://localhost:8000/subscriptions/create" init;
            EvResponseJson refused_response]
           fresh).
Proof.
  split; [reflexivity|].
  apply (X10_subscription_purchase_refused (answers refused_response)
           (VStr "pro") fresh refused_response refused);
    [reflexivity | simpl; lia | reflexivity | done | done | reflexivity].
Defined.


Lemma X13_credit_purchase_failure_witness :
  ¬ (200 ≤ status not_found ≤ 299)
  ∧ ∃ init,
      handleCreditPurchase (answers not_found) (VNum 100) fresh
      = (Return tt,
         with_events
           [EvFetch "http://localhost:8000/credits/purchase" init;
            EvConsoleError "Credit purchase failed:"
              (Error "HTTP error! status: 404");
            EvAlert
              "Failed to create credit purchase checkout. Please try again."]
           fresh).
Proof.
  split; [simpl; lia|].
  apply (X13_credit_purchase_failure (answers not_found) (VNum 100) fresh
           not_found); [reflexivity | simpl; lia].
Defined.


Lemma X16_payment_success_failures_witness :
  URLSearchParams_get [("session_id", "cs_1")] "session_id" = VStr "cs_1"
  ∧ (∃ init,
       handlePaymentSuccess offline [("session_id", "cs_1")] awaiting_payment
       = (Return tt,
          with_events
            [EvFetch "http://localhost:8000/subscriptions/status" init;
             EvConsoleError "Failed to get updated user status:" TypeError]
            awaiting_payment))
  ∧ (∃ init,
       handlePaymentSuccess (answers no_content) [("session_id", "cs_1")]
         awaiting_payment
       = (Return tt,
          with_events
            [EvFetch "http://localhost:8000/subscriptions/status" init;
             EvResponseJson no_content;
             EvConsoleError "Failed to get updated user status:" SyntaxError]
            awaiting_payment))
  ∧ (∃ init,
       handlePaymentSuccess (answers null_response) [("session_id", "cs_1")]
         awaiting_payment
       = (Return tt,
          with_events
            [EvFetch "http://localhost:8000/subscriptions/status" init;
             EvResponseJson null_response;
             EvConsoleLog [VStr "Updated user status:"; VNull];
             EvConsoleError "Failed to get updated user status:" TypeError]
            awaiting_payment)).
Proof.
  split; [reflexivity|].
  destruct (X16_payment_success_failures offline [("session_id", "cs_1")]
              awaiting_payment "cs_1") as (Hdown & _ & _); [reflexivity|done|].
  destruct (X16_payment_success_failures (answers no_content)
              [("session_id", "cs_1")] awaiting_payment "cs_1")
    as (_ & Hempty & _); [reflexivity|done|].
  destruct (X16_payment_success_failures (answers null_response)
              [("session_id", "cs_1")] awaiting_payment "cs_1")
    as (_ & _ & Hnull); [reflexivity|done|].
  split; [apply Hdown; reflexivity|].
  split.
  - apply (Hempty no_content); [reflexivity | simpl; lia | reflexivity].
  - apply (Hnull null_response); [reflexivity | simpl; lia | reflexivity].
Defined.

Lemma X17_credits_display_witness :
  safe_int (-1) = true
  ∧ stringable (VStr "free") = true
  ∧ updateUserInterface free_tier fresh
    = (Return tt,
       with_events
         [EvConsoleLog [VStr "User tier: free"];
          EvConsoleLog [VStr "Available credits: Unlimited"]]
         fresh)
  ∧ updateUserInterface
      (VObj [("success", VBool true); ("tier", VStr "pro");
             ("credits", VStr "-1")])
      fresh
    = (Return tt,
       with_events
         [EvConsoleLog [VStr "User tier: pro"];
          EvConsoleLog [VStr "Available credits: -1"]]
         fresh).
Proof.
  split; [reflexivity|]. split; [reflexivity|].
  destruct (X17_credits_display
              [("success", VBool true); ("tier", VStr "free");
               ("credits", VNum (-1))] fresh) as [Hnumber _];
    [reflexivity | reflexivity |].
  destruct (X17_credits_display
              [("success", VBool true); ("tier", VStr "pro");
               ("credits", VStr "-1")] fresh) as [_ Htext];
    [reflexivity | reflexivity |].
  split.
  - apply (Hnumber (-1)); reflexivity.
  - apply (Htext "-1"). reflexivity.
Defined.


Lemma X19_pricing_failure_witness :
  ¬ (200 ≤ status server_error ≤ 299)
  ∧ ∃ init,
      displayPricingPlans (answers server_error) fresh
      = (Return tt,
         with_events
           [EvFetch "http://localhost:8000/pricing/plans" init;
            EvConsoleError "Failed to load pricing plans:"
              (Error "HTTP error! status: 500")]
           fresh).
Proof.
  split; [simpl; lia|].
  apply (X19_pricing_failure (answers server_error) fresh server_error);
    [reflexivity | simpl; lia].
Defined.

Lemma X21_pricing_refused_witness :
  truthy (default VUndefined (obj_get "success" (own_props refused))) = false
  ∧ ∃ init,
      displayPricingPlans (answers refused_response) fresh
      = (Return tt,
         with_events
           [EvFetch "http://localhost:8000/pricing/plans" init;
            EvResponseJson refused_response]
           fresh).
Proof.
  split; [reflexivity|].
  apply (X21_pricing_refused (answers refused_response) fresh refused_response
           refused);
    [reflexivity | simpl; lia | reflexivity | done | done | reflexivity].
Defined.

Lemma X22_pricing_totals_witness :
  Forall safe_package [(100, 20, 5); (500, 150, 20)]
  ∧ logged (events (displayPricingPlans (answers packages_response) fresh).2)
    = [[VStr "Subscription Plans:"]; [VStr "Credit Packages:"];
       [VStr "100 credits (+20 bonus): $5"]; [VStr "Total: 120 credits"];
       [VStr ""];
       [VStr "500 credits (+150 bonus): $20"]; [VStr "Total: 650 credits"];
       [VStr ""]].
Proof.
  assert (Hpkgs : Forall safe_package [(100, 20, 5); (500, 150, 20)]).
  { repeat constructor; simpl; lia. }
  split; [exact Hpkgs|].
  apply (X22_pricing_totals (answers packages_response) fresh packages_response
           [(100, 20, 5); (500, 150, 20)]);
    [reflexivity | simpl; lia | reflexivity | exact Hpkgs].
Defined.

Lemma X23_port_exported_witness :
  ({["PORT" := "10000"]} : gmap string string) !! "PORT" = Some "10000"
  ∧ StartSh.environ (StartSh.start (λ _, []) {["PORT" := "10000"]}) !! "PORT"
    = Some "10000".
Proof.
  split; [reflexivity|].
  destruct (X23_port_exported (λ _, []) {["PORT" := "10000"]})
    as (port & Hport & _ & Hkept).
  rewrite Hport. f_equal. apply Hkept; [reflexivity | done].
Defined.

Lemma X25_blank_port_witness :
  ({["PORT" := " "]} : gmap string string) !! "PORT" = Some " "
  ∧ all_ifs " " = true
  ∧ StartSh.argv (StartSh.start (λ _, []) {["PORT" := " "]})
    = ["uvicorn"; "main:app"; "--host"; "0.0.0.0"; "--port"; "--workers"; "1"].
Proof.
  split; [reflexivity|]. split; [reflexivity|].
  apply (X25_blank_port (λ _, []) {["PORT" := " "]} " ");
    [reflexivity | done | reflexivity].
Defined.

Lemma X26_port_split_witness :
  StartSh.single_word "8080" = true
  ∧ StartSh.single_word "--reload" = true
  ∧ StartSh.argv (StartSh.start (λ _, []) {["PORT" := "8080 --reload"]})
    = ["uvicorn"; "main:app"; "--host"; "0.0.0.0"; "--port"; "8080";
       "--reload"; "--workers"; "1"].
Proof.
  split; [reflexivity|]. split; [reflexivity|].
  apply (X26_port_split (λ _, []) {["PORT" := "8080 --reload"]} "8080"
           "--reload"); reflexivity.
Defined.
